(** * ALCHL: ZE29A-C2H5OH breath-alcohol sensor driver (Alcolimetro_v1/src/main.cpp)

    A shallow embedding of the protocol engine of [main.cpp]: the checksum
    derivations, the 9-byte command frames, the frame reader
    [leerRespuesta] and the command functions built on it.

    Machine integers are modelled as [Z] with the wrap-around written out:
    [byte] is [uint8_t], [int] is the 32-bit signed integer of the ESP32 and
    [unsigned long] is 32 bits wide.  Byte arrays are lists indexed with
    [!!!] and updated with [<[i := b]>]; every index the program uses lies
    inside its array, a read outside would give 0 and a write outside would
    do nothing. *)

From Stdlib Require Import ZArith List Lia Bool String.
From stdpp Require Import base list.
Import ListNotations.

Local Open Scope string_scope.
Local Open Scope list_scope.
Local Open Scope Z_scope.

(** ** Machine integers *)

Module CInt.

(** Conversion to [byte] ([uint8_t]): reduction modulo 2^8. *)
Definition to_byte (z : Z) : Z := z mod 256.

(** Conversion to [int]: the representative in [-2^31, 2^31). *)
Definition to_int (z : Z) : Z := (z + 2147483648) mod 4294967296 - 2147483648.

(** Conversion to [unsigned long]: reduction modulo 2^32. *)
Definition to_ulong (z : Z) : Z := z mod 4294967296.

Definition is_byte (z : Z) : Prop := 0 <= z < 256.

Definition is_int (z : Z) : Prop := -2147483648 <= z < 2147483648.

End CInt.
Import CInt.

(** ** Checksums *)

(** [for (i = from; i < upto; i++) sum += data[i];] on an [int] accumulator. *)
Fixpoint sum_loop (data : list Z) (i : nat) (count : nat) (sum : Z) : Z :=
  match count with
  | O => sum
  | S count' => sum_loop data (S i) count' (to_int (sum + data !!! i))
  end.

(** [calcularChecksum] (lines 61-67): [return (byte)((-sum) + 1);] *)
Definition calcularChecksum (data : list Z) (len : Z) : Z :=
  let sum := sum_loop data 0 (Z.to_nat len) 0 in
  to_byte (to_int (to_int (- sum) + 1)).

(** The sum over [cmd[1..7]] shared by the three inline derivations
    (lines 132-135, 351-354, 410-413). *)
Definition sum_1_7 (cmd : list Z) : Z := sum_loop cmd 1 7 0.

(** [(byte)(~(sum & 0xFF) + 1)], line 136 of [cambiarEstado]. *)
Definition checksum_mask (sum : Z) : Z :=
  to_byte (to_int (Z.lnot (Z.land sum 255) + 1)).

(** [(byte)((~sum) + 1)], lines 355 and 414. *)
Definition checksum_not (sum : Z) : Z :=
  to_byte (to_int (Z.lnot sum + 1)).

(** [(byte)((-sum) + 1)], the expression of [calcularChecksum] on a given
    sum (also the line commented out at 137). *)
Definition checksum_neg (sum : Z) : Z :=
  to_byte (to_int (to_int (- sum) + 1)).

(** ** Command frames *)

Definition STATUS_IDLE : Z := 0x31.
Definition STATUS_PREHEATING : Z := 0x32.
Definition STATUS_WAITING_FOR_BLOW : Z := 0x33.
Definition STATUS_BLOWING : Z := 0x34.
Definition STATUS_BLOW_INTERRUPTED : Z := 0x35.
Definition STATUS_CALCULATING : Z := 0x36.
Definition STATUS_READ_RESULT : Z := 0x37.

Definition ALARM_NONE : Z := 0x00.
Definition ALARM_DRINKING : Z := 0x01.
Definition ALARM_DRUNK : Z := 0x02.

(** The hard-coded frames (lines 180/268/313, 224, 295). *)
Definition cmdEstado : list Z := [0xFF; 0x01; 0x85; 0x00; 0x00; 0x00; 0x00; 0x00; 0x7A].
Definition cmdLeerResultado : list Z := [0xFF; 0x01; 0x86; 0x00; 0x00; 0x00; 0x00; 0x00; 0x79].
Definition cmdUmbral : list Z := [0xFF; 0x01; 0x90; 0x00; 0x00; 0x00; 0x00; 0x00; 0x6F].
Definition cmdTest : list Z := cmdEstado.

(** Lines 128-136 of [cambiarEstado]. *)
Definition cmd_cambiarEstado (nuevoEstado : Z) : list Z :=
  let cmd := [0xFF; 0x01; 0x87; nuevoEstado; 0x00; 0x00; 0x00; 0x00; 0x00] in
  let sum := sum_1_7 cmd in
  <[8%nat := checksum_mask sum]> cmd.

(** Lines 347-355 of [leerTiempoSoplado]. *)
Definition cmd_leerTiempoSoplado : list Z :=
  let cmd := [0xFF; 0x01; 0x88; 0x00; 0x00; 0x00; 0x00; 0x00; 0x00] in
  let sum := sum_1_7 cmd in
  <[8%nat := checksum_not sum]> cmd.

(** Lines 406-414 of [configurarTiempoSoplado]. *)
Definition cmd_configurarTiempoSoplado (nuevoTiempo : Z) : list Z :=
  let cmd := [0xFF; 0x01; 0x89; nuevoTiempo; 0x00; 0x00; 0x00; 0x00; 0x00] in
  let sum := sum_1_7 cmd in
  <[8%nat := checksum_not sum]> cmd.

(** ** The world: clock, serial link to the sensor, console, globals

    Computation is taken to cost no time: the clock advances only in
    [delay].  The sensor's transmissions are a queue of bytes, each with the
    time at which it reaches the receive buffer; the receive buffer is taken
    to be large enough never to drop a byte. *)

(** One item printed on the console [Serial]. *)
Inductive out : Type :=
| Str (s : string)   (* Serial.print of a string literal *)
| Hex (z : Z)        (* Serial.print(z, HEX) *)
| Dec (z : Z)        (* Serial.print of an integer *)
| Flt (z : Z)        (* Serial.print of a float holding the integer z *)
| Nl.                (* the line end of Serial.println *)

Record World : Type := mkWorld {
  now : Z;                    (* milliseconds since boot *)
  rx : list (Z * Z);          (* sensor -> ESP32: (arrival time, byte), FIFO *)
  tx : list Z;                (* ESP32 -> sensor: bytes written so far *)
  console : list out;         (* what was printed on Serial *)
  currentStatus : Z;          (* global, line 32 *)
  resultAvailable : bool      (* global, line 33 *)
}.

Definition set_now (t : Z) (w : World) : World :=
  mkWorld t (rx w) (tx w) (console w) (currentStatus w) (resultAvailable w).
Definition set_rx (q : list (Z * Z)) (w : World) : World :=
  mkWorld (now w) q (tx w) (console w) (currentStatus w) (resultAvailable w).
Definition set_tx (l : list Z) (w : World) : World :=
  mkWorld (now w) (rx w) l (console w) (currentStatus w) (resultAvailable w).
Definition set_console (c : list out) (w : World) : World :=
  mkWorld (now w) (rx w) (tx w) c (currentStatus w) (resultAvailable w).
Definition set_currentStatus (s : Z) (w : World) : World :=
  mkWorld (now w) (rx w) (tx w) (console w) s (resultAvailable w).
Definition set_resultAvailable (b : bool) (w : World) : World :=
  mkWorld (now w) (rx w) (tx w) (console w) (currentStatus w) b.

(** [millis()]: an [unsigned long]. *)
Definition millis (w : World) : Z := to_ulong (now w).

(** [delay(ms)]. *)
Definition delay (ms : Z) (w : World) : World := set_now (now w + ms) w.

(** The bytes at the front of the queue that have arrived by time [t]. *)
Fixpoint arrived (t : Z) (q : list (Z * Z)) : list Z :=
  match q with
  | (ta, b) :: q' => if ta <=? t then b :: arrived t q' else []
  | [] => []
  end.

(** [SensorSerial.available()]: how many bytes can be read now. *)
Definition SensorSerial_available (w : World) : Z :=
  Z.of_nat (length (arrived (now w) (rx w))).

(** [SensorSerial.read()]: the next byte, or -1 when none has arrived. *)
Definition SensorSerial_read (w : World) : Z * World :=
  match rx w with
  | (ta, b) :: q' => if ta <=? now w then (b, set_rx q' w) else (-1, w)
  | [] => (-1, w)
  end.

(** [SensorSerial.write(cmd, len)]. *)
Definition SensorSerial_write (cmd : list Z) (len : Z) (w : World) : World :=
  set_tx (tx w ++ firstn (Z.to_nat len) cmd) w.

(** [SensorSerial.flush()]: waits for the transmission to end. *)
Definition SensorSerial_flush (w : World) : World := w.

Definition Serial_print (o : out) (w : World) : World :=
  set_console (console w ++ [o]) w.
Definition Serial_println (o : out) (w : World) : World :=
  set_console (console w ++ [o; Nl]) w.
Definition Serial_println0 (w : World) : World :=
  set_console (console w ++ [Nl]) w.

(** [while (SensorSerial.available()) { SensorSerial.read(); }]
    (lines 51-53, 150-152, 368-370, 427-429): by recursion on the queue. *)
Fixpoint vaciar (t : Z) (q : list (Z * Z)) : list (Z * Z) :=
  match q with
  | (ta, b) :: q' => if ta <=? t then vaciar t q' else q
  | [] => []
  end.

Definition vaciar_buffer (w : World) : World := set_rx (vaciar (now w) (rx w)) w.

(** [enviarComando] (lines 49-59). *)
Definition enviarComando (cmd : list Z) (len : Z) (w : World) : World :=
  let w := vaciar_buffer w in
  let w := SensorSerial_write cmd len w in
  let w := SensorSerial_flush w in
  delay 500 w.

(** [imprimirRespuesta] (lines 112-121). *)
Fixpoint imprimirRespuesta_loop (response : list Z) (i count : nat) (w : World) : World :=
  match count with
  | O => w
  | S count' =>
      let w := Serial_print (Str "0x") w in
      let w := if response !!! i <? 0x10 then Serial_print (Str "0") w else w in
      let w := Serial_print (Hex (response !!! i)) w in
      let w := Serial_print (Str " ") w in
      imprimirRespuesta_loop response (S i) count' w
  end.

Definition imprimirRespuesta (response : list Z) (len : Z) (w : World) : World :=
  let w := Serial_print (Str "Respuesta: ") w in
  let w := imprimirRespuesta_loop response 0 (Z.to_nat len) w in
  Serial_println0 w.

(** ** The frame reader [leerRespuesta] (lines 69-110) *)

(** The locals of [leerRespuesta]. *)
Record lectura : Type := mkLectura {
  buffer : list Z;
  bytesRead : Z;
  startByteFound : bool
}.

(** One pass through the body of the [while] loop (lines 76-100): either
    the loop goes on with new locals, or the function returns. *)
Definition leerRespuesta_body (expectedLen : Z) (st : lectura) (w : World)
  : (lectura * World) + (bool * list Z * World) :=
  if negb (SensorSerial_available w =? 0) then
    let '(c, w) := SensorSerial_read w in
    let currentByte := to_byte c in
    if negb (startByteFound st) then
      if currentByte =? 0xFF then
        inl (mkLectura (<[0%nat := currentByte]> (buffer st)) 1 true, w)
      else
        inl (st, w)                                     (* continue *)
    else
      let buffer' := <[Z.to_nat (bytesRead st) := currentByte]> (buffer st) in
      let bytesRead' := to_int (bytesRead st + 1) in
      if bytesRead' >=? expectedLen then
        let w := Serial_print (Str "Bytes leídos: ") w in
        let w := Serial_println (Dec bytesRead') w in
        let w := imprimirRespuesta buffer' expectedLen w in
        inr (true, buffer', w)
      else
        inl (mkLectura buffer' bytesRead' true, delay 10 w)
  else
    inl (st, delay 10 w).

(** Lines 103-109: the exit taken when the three seconds are over. *)
Definition leerRespuesta_timeout (st : lectura) (w : World) : bool * list Z * World :=
  let w := Serial_println (Str "Timeout esperando respuesta completa") w in
  let w :=
    if bytesRead st >? 0 then
      let w := Serial_print (Str "Bytes parciales recibidos: ") w in
      let w := Serial_println (Dec (bytesRead st)) w in
      imprimirRespuesta (buffer st) (bytesRead st) w
    else w in
  (false, buffer st, w).

(** The [while (millis() - startTime < 3000)] loop, with an iteration
    budget; [None] only when the budget is used up. *)
Fixpoint leerRespuesta_loop (fuel : nat) (startTime expectedLen : Z)
    (st : lectura) (w : World) : option (bool * list Z * World) :=
  match fuel with
  | O => None
  | S fuel' =>
      if to_ulong (millis w - startTime) <? 3000 then
        match leerRespuesta_body expectedLen st w with
        | inl (st', w') => leerRespuesta_loop fuel' startTime expectedLen st' w'
        | inr r => Some r
        end
      else Some (leerRespuesta_timeout st w)
  end.

(** [leerRespuesta(buffer, expectedLen)]: the result is the returned
    [bool], the contents of [buffer] and the new world.  Every iteration
    reads a byte or waits 10 ms, so [length (rx w) + 301] iterations are
    enough (see [leerRespuesta_total]). *)
Definition leerRespuesta (buf : list Z) (expectedLen : Z) (w : World)
  : option (bool * list Z * World) :=
  let startTime := millis w in
  leerRespuesta_loop (length (rx w) + 301) startTime expectedLen
    (mkLectura buf 0 false) w.

(** ** The command functions *)

(** The acceptance test written out after every successful read:
    [response[0] == 0xFF && response[1] == code]
    (lines 162, 185, 229, 273, 299, 380, 439). *)
Definition cabecera_ok (response : list Z) (code : Z) : bool :=
  (response !!! 0%nat =? 0xFF) && (response !!! 1%nat =? code).

(** A [byte response[9]] before [leerRespuesta] fills it.  The source
    leaves it uninitialised (or zeroes it, lines 378 and 437); only bytes
    that [leerRespuesta] has written are ever read back. *)
Definition response0 : list Z := replicate 9 0.

(** [verificarEstado] (lines 179-221). *)
Definition verificarEstado (w : World) : option World :=
  let w := enviarComando cmdEstado 9 w in
  '(ok, response, w) ← leerRespuesta response0 9 w;
  if ok : bool then
    if cabecera_ok response 0x85 then
      let w := set_currentStatus (response !!! 2%nat) w in
      let w := Serial_print (Str "Estado: ") w in
      let s := currentStatus w in
      Some (
        if s =? STATUS_IDLE then
          Serial_println (Str "Inactivo (esperando instrucciones)") w
        else if s =? STATUS_PREHEATING then
          Serial_println (Str "Precalentamiento") w
        else if s =? STATUS_WAITING_FOR_BLOW then
          Serial_println (Str "Esperando soplido") w
        else if s =? STATUS_BLOWING then
          Serial_println (Str "Soplando") w
        else if s =? STATUS_BLOW_INTERRUPTED then
          Serial_println (Str "Soplido interrumpido") w
        else if s =? STATUS_CALCULATING then
          Serial_println (Str "Calculando resultado") w
        else if s =? STATUS_READ_RESULT then
          let w := Serial_println (Str "Resultado listo para lectura") w in
          set_resultAvailable true w
        else
          let w := Serial_print (Str "Desconocido: 0x") w in
          Serial_println (Hex s) w)
    else Some w
  else
    Some (Serial_println (Str "Error al leer el estado") w).

(** The [while] loop of [esperarEstado] (lines 41-45), with an iteration
    budget. *)
Fixpoint esperarEstado_loop (fuel : nat) (t0 estadoDeseado timeoutMs : Z)
    (w : World) : option World :=
  match fuel with
  | O => None
  | S fuel' =>
      if to_ulong (millis w - t0) <? to_ulong timeoutMs then
        w ← verificarEstado w;
        if currentStatus w =? estadoDeseado then Some w
        else esperarEstado_loop fuel' t0 estadoDeseado timeoutMs (delay 500 w)
      else
        Some (Serial_println (Str "Timeout esperando estado deseado.") w)
  end.

(** [esperarEstado] (lines 39-47).  A pass through the loop takes at least
    a second (the 500 ms of [enviarComando] and the 500 ms of line 44). *)
Definition esperarEstado (estadoDeseado timeoutMs : Z) (w : World) : option World :=
  let t0 := millis w in
  esperarEstado_loop (Z.to_nat (to_ulong timeoutMs / 1000) + 2) t0
    estadoDeseado timeoutMs w.

(** The debug dump of a command (lines 140-147, 358-365, 417-424), the
    same loop body as [imprimirRespuesta]. *)
Definition imprimir_cmd (titulo : string) (cmd : list Z) (w : World) : World :=
  let w := Serial_print (Str titulo) w in
  let w := imprimirRespuesta_loop cmd 0 9 w in
  Serial_println0 w.

(** Lines 124-157 of [cambiarEstado]: the command is built, shown and sent. *)
Definition cambiarEstado_envio (nuevoEstado : Z) (w : World) : World :=
  let w := Serial_print (Str "Intentando cambiar estado a 0x") w in
  let w := Serial_println (Hex nuevoEstado) w in
  let cmd := cmd_cambiarEstado nuevoEstado in
  let w := imprimir_cmd "Comando enviado: " cmd w in
  let w := vaciar_buffer w in
  let w := SensorSerial_write cmd 9 w in
  let w := SensorSerial_flush w in
  delay 800 w.

(** [cambiarEstado] (lines 123-177). *)
Definition cambiarEstado (nuevoEstado : Z) (w : World) : option World :=
  let w := cambiarEstado_envio nuevoEstado w in
  '(ok, response, w) ← leerRespuesta response0 9 w;
  if ok : bool then
    if cabecera_ok response 0x87 then
      if response !!! 2%nat =? 0x01 then
        let w := Serial_print (Str "Cambio de estado exitoso a 0x") w in
        Some (Serial_println (Hex nuevoEstado) w)
      else
        let w := Serial_print (Str "Cambio de estado rechazado: 0x") w in
        Some (Serial_println (Hex (response !!! 2%nat)) w)
    else
      Some (Serial_println (Str "Respuesta incorrecta al cambiar estado") w)
  else
    Some (Serial_println (Str "Sin respuesta al cambiar estado") w).

(** [leerResultado] (lines 223-260). *)
Definition leerResultado (w : World) : option World :=
  let w := enviarComando cmdLeerResultado 9 w in
  '(ok, response, w) ← leerRespuesta response0 9 w;
  if ok : bool then
    if cabecera_ok response 0x86 then
      let alcoholContent :=
        to_int (Z.lor (Z.shiftl (response !!! 2%nat) 8) (response !!! 3%nat)) in
      let alcoholMg100ml := alcoholContent in
      let alarmStatus := response !!! 7%nat in
      let w := Serial_print (Str "Contenido de alcohol: ") w in
      let w := Serial_print (Flt alcoholMg100ml) w in
      let w := Serial_println (Str " mg/100ml") w in
      let w := Serial_print (Str "Estado de alarma: ") w in
      Some (
        if alarmStatus =? ALARM_NONE then
          Serial_println (Str "Sin alcohol (<20mg/100ml)") w
        else if alarmStatus =? ALARM_DRINKING then
          Serial_println (Str "Bebido (20-80mg/100ml)") w
        else if alarmStatus =? ALARM_DRUNK then
          Serial_println (Str "Ebrio (>=80mg/100ml)") w
        else
          let w := Serial_print (Str "Desconocido: 0x") w in
          Serial_println (Hex alarmStatus) w)
    else
      Some (Serial_println (Str "Respuesta inválida al leer resultado") w)
  else
    Some (Serial_println (Str "Error al leer el resultado") w).

(** Lines 263-265 of [iniciarPrueba]: the banner (its first line begins
    with a line feed). *)
Definition iniciarPrueba_banner (w : World) : World :=
  let w := Serial_println (Str "
------------------------------") w in
  let w := Serial_println (Str "Iniciando prueba de alcohol") w in
  Serial_println (Str "------------------------------") w.

(** Lines 263-278 of [iniciarPrueba]: the banner and the state query that
    refreshes [currentStatus]. *)
Definition iniciarPrueba_consulta (w : World) : option World :=
  let w := iniciarPrueba_banner w in
  let w := enviarComando cmdEstado 9 w in
  '(ok, response, w) ← leerRespuesta response0 9 w;
  if (ok : bool) && cabecera_ok response 0x85 then
    let w := set_currentStatus (response !!! 2%nat) w in
    let w := Serial_print (Str "Estado actual antes de iniciar: 0x") w in
    Some (Serial_println (Hex (currentStatus w)) w)
  else Some w.

(** [iniciarPrueba] (lines 262-292). *)
Definition iniciarPrueba (w : World) : option World :=
  w ← iniciarPrueba_consulta w;
  if (currentStatus w =? STATUS_IDLE) || (currentStatus w =? STATUS_READ_RESULT) then
    w ← esperarEstado STATUS_IDLE 10000 w;
    w ← cambiarEstado STATUS_PREHEATING w;
    Some (Serial_println
            (Str "Iniciando precalentamiento del sensor (10 segundos)...") w)
  else
    let w := Serial_println
               (Str "No se puede iniciar prueba desde el estado actual.") w in
    Some (Serial_println
            (Str "El sensor debe estar en estado IDLE (0x31) o READ_RESULT (0x37).") w).

(** [consultarUmbrales] (lines 294-308). *)
Definition consultarUmbrales (w : World) : option World :=
  let w := enviarComando cmdUmbral 9 w in
  '(ok, response, w) ← leerRespuesta response0 9 w;
  if (ok : bool) && cabecera_ok response 0x90 then
    let w := Serial_print (Str "Umbral de bebido: ") w in
    let w := Serial_print (Dec (response !!! 2%nat)) w in
    let w := Serial_println (Str " mg/100ml") w in
    let w := Serial_print (Str "Umbral de ebriedad: ") w in
    let w := Serial_print (Dec (response !!! 3%nat)) w in
    Some (Serial_println (Str " mg/100ml") w)
  else Some w.

(** [probarComunicacion] (lines 310-327). *)
Definition probarComunicacion (w : World) : World :=
  let w := Serial_println (Str "Probando comunicación...") w in
  let w := Serial_println (Str "Enviando comando de estado:") w in
  let w := imprimirRespuesta_loop cmdTest 0 9 w in
  let w := Serial_println0 w in
  let w := enviarComando cmdTest 9 w in
  let w := delay 100 w in
  let w := Serial_print (Str "Bytes disponibles después del comando: ") w in
  Serial_println (Dec (SensorSerial_available w)) w.

(** Lines 344-375 of [leerTiempoSoplado]: the command is built, shown and
    sent. *)
Definition leerTiempoSoplado_envio (w : World) : World :=
  let w := Serial_println (Str "Leyendo tiempo de soplado configurado...") w in
  let cmd := cmd_leerTiempoSoplado in
  let w := imprimir_cmd "Comando enviado: " cmd w in
  let w := vaciar_buffer w in
  let w := SensorSerial_write cmd 9 w in
  let w := SensorSerial_flush w in
  delay 800 w.

(** [leerTiempoSoplado] (lines 343-392). *)
Definition leerTiempoSoplado (w : World) : option World :=
  let w := leerTiempoSoplado_envio w in
  '(ok, response, w) ← leerRespuesta response0 9 w;
  if ok : bool then
    if cabecera_ok response 0x88 then
      let tiempoSoplado := response !!! 2%nat in
      let w := Serial_print (Str "Tiempo de soplado actual: ") w in
      let w := Serial_print (Dec tiempoSoplado) w in
      Some (Serial_println (Str " segundos") w)
    else
      let w := Serial_println (Str "Respuesta incorrecta al leer tiempo de soplado") w in
      Some (imprimirRespuesta response 9 w)
  else
    Some (Serial_println (Str "Sin respuesta al leer tiempo de soplado") w).

(** Lines 401-434 of [configurarTiempoSoplado]: the command is built, shown
    and sent. *)
Definition configurarTiempoSoplado_envio (nuevoTiempo : Z) (w : World) : World :=
  let w := Serial_print (Str "Configurando tiempo de soplado a ") w in
  let w := Serial_print (Dec nuevoTiempo) w in
  let w := Serial_println (Str " segundos...") w in
  let cmd := cmd_configurarTiempoSoplado nuevoTiempo in
  let w := imprimir_cmd "Enviando: " cmd w in
  let w := vaciar_buffer w in
  let w := SensorSerial_write cmd 9 w in
  let w := SensorSerial_flush w in
  delay 800 w.

(** [configurarTiempoSoplado] (lines 395-452).  [nuevoTiempo] is the value
    of the [byte] parameter, in 0..255: a wider value is converted at the
    call, before the function runs, as in [loop_c]. *)
Definition configurarTiempoSoplado (nuevoTiempo : Z) (w : World) : option World :=
  if (nuevoTiempo <? 1) || (nuevoTiempo >? 10) then
    Some (Serial_println (Str "Error: Tiempo fuera de rango (1-10s)") w)
  else
    let w := configurarTiempoSoplado_envio nuevoTiempo w in
    '(ok, response, w) ← leerRespuesta response0 9 w;
    if ok : bool then
      if cabecera_ok response 0x89 then
        if response !!! 2%nat =? 0x01 then
          Some (Serial_println (Str "¡Configuración de tiempo de soplado exitosa!") w)
        else
          Some (Serial_println (Str "Configuración de tiempo de soplado rechazada.") w)
      else
        let w := Serial_println
                   (Str "Respuesta incorrecta al configurar tiempo de soplado") w in
        Some (imprimirRespuesta response 9 w)
    else
      Some (Serial_println (Str "Sin respuesta al configurar tiempo de soplado") w).

(** ** Auxiliary definitions for the statements *)

(** The plain sum of a list of bytes. *)
Definition suma (p : list Z) : Z := fold_right Z.add 0 p.

(** Bytes 1..7 of a frame: address, command code and the five data bytes. *)
Definition payload (f : list Z) : list Z := take 7 (drop 1 f).

(** A well-formed outbound frame: nine bytes, start marker [0xFF], and a
    last byte that is the two's-complement negation of the payload sum. *)
Definition frame_ok (f : list Z) : Prop :=
  length f = 9%nat /\
  f !!! 0%nat = 0xFF /\
  Forall is_byte f /\
  f !!! 8%nat = (0 - suma (payload f)) mod 256 /\
  f !!! 8%nat = Z.land (Z.lnot (suma (payload f)) + 1) 0xFF /\
  (suma (payload f) + f !!! 8%nat) mod 256 = 0.

(** [w'] differs from [w] on the transmit side by whole well-formed frames. *)
Definition tx_extends (w w' : World) : Prop :=
  exists fs, tx w' = tx w ++ concat fs /\ Forall frame_ok fs.

(** What the loop of [imprimirRespuesta] prints. *)
Fixpoint dump (response : list Z) (i count : nat) : list out :=
  match count with
  | O => []
  | S count' =>
      ([Str "0x"] ++ (if response !!! i <? 0x10 then [Str "0"] else [])
         ++ [Hex (response !!! i); Str " "]) ++ dump response (S i) count'
  end.

(** What [imprimirRespuesta response len] prints. *)
Definition respuesta_out (response : list Z) (len : Z) : list out :=
  [Str "Respuesta: "] ++ dump response 0 (Z.to_nat len) ++ [Nl].

(** The console output of the three exits of [leerRespuesta]. *)
Definition out_leidos (response : list Z) (n len : Z) : list out :=
  [Str "Bytes leídos: "; Dec n; Nl] ++ respuesta_out response len.
Definition out_timeout_sin_datos : list out :=
  [Str "Timeout esperando respuesta completa"; Nl].
Definition out_timeout_parcial (response : list Z) (n : Z) : list out :=
  [Str "Timeout esperando respuesta completa"; Nl;
   Str "Bytes parciales recibidos: "; Dec n; Nl] ++ respuesta_out response n.

(** The byte values of a stretch of the receive queue, as [read] casts them. *)
Definition bytes_of (q : list (Z * Z)) : list Z := map (fun tb => to_byte (snd tb)) q.

(** No start marker in a stretch of the receive queue. *)
Definition sin_marca (q : list (Z * Z)) : Prop :=
  Forall (fun tb => to_byte (snd tb) <> 0xFF) q.

(** Every byte of a stretch of the receive queue has arrived by time [t]. *)
Definition llegan_antes (t : Z) (q : list (Z * Z)) : Prop :=
  Forall (fun tb => fst tb <= t) q.

(** Nothing of the queue [q] arrives before time [t]. *)
Definition silencio_hasta (t : Z) (q : list (Z * Z)) : Prop :=
  match q with
  | [] => True
  | (ta, _) :: _ => t <= ta
  end.

(** The last byte of a 9-byte frame closes its payload sum to zero. *)
Definition checksum_valida (frame : list Z) : bool :=
  (suma (payload frame) + frame !!! 8%nat) mod 256 =? 0.

(** The unsigned 16-bit big-endian value of bytes 2 and 3 of a response. *)
Definition concentracion (response : list Z) : Z :=
  256 * response !!! 2%nat + response !!! 3%nat.

(** The console line for an alarm code (the [switch] at lines 240-253). *)
Definition alarma_out (alarmStatus : Z) : list out :=
  if alarmStatus =? ALARM_NONE then [Str "Sin alcohol (<20mg/100ml)"; Nl]
  else if alarmStatus =? ALARM_DRINKING then [Str "Bebido (20-80mg/100ml)"; Nl]
  else if alarmStatus =? ALARM_DRUNK then [Str "Ebrio (>=80mg/100ml)"; Nl]
  else [Str "Desconocido: 0x"; Hex alarmStatus; Nl].

(** What [leerResultado] prints for an accepted response. *)
Definition resultado_out (response : list Z) : list out :=
  [Str "Contenido de alcohol: "; Flt (concentracion response); Str " mg/100ml"; Nl;
   Str "Estado de alarma: "] ++ alarma_out (response !!! 7%nat).


(** A world with nothing pending, at time 0, in the given mirrored state. *)
Definition mundo (estado : Z) (q : list (Z * Z)) : World :=
  mkWorld 0 q [] [] estado false.

(** The bytes [bs], all reaching the receive buffer at time [t]. *)
Definition llegada (t : Z) (bs : list Z) : list (Z * Z) := map (fun b => (t, b)) bs.

(** The byte that [SensorSerial.read] would return now and the queue it
    leaves, when a byte has arrived. *)
Definition listo (w : World) : option (Z * list (Z * Z)) :=
  match rx w with
  | (ta, b) :: q => if ta <=? now w then Some (b, q) else None
  | [] => None
  end.

(** A stretch of the receive queue that begins with a start marker. *)
Definition con_marca (f : list (Z * Z)) : Prop :=
  match f with
  | (_, b) :: _ => to_byte b = 0xFF
  | [] => False
  end.

(** What a call [leerRespuesta buf 9 w] that returns [r] has done: it took
    [g ++ f] off the receive queue, [g] being the bytes dropped before the
    first start marker and [f] the bytes stored from the marker on. *)
Definition lectura_de (buf : list Z) (w : World) (g f : list (Z * Z))
    (r : bool * list Z * World) : Prop :=
  let '(ok, buf', w') := r in
  rx w = g ++ f ++ rx w' /\ sin_marca g /\ (f = [] \/ con_marca f) /\
  buf' = bytes_of f ++ drop (length f) buf /\
  tx w' = tx w /\ currentStatus w' = currentStatus w /\
  resultAvailable w' = resultAvailable w /\
  if ok then
    length f = 9%nat /\ now w <= now w' < now w + 3000 /\
    console w' = console w ++ out_leidos buf' 9 9
  else
    (length f < 9)%nat /\ now w' = now w + 3000 /\
    console w' = console w ++
      match f with
      | [] => out_timeout_sin_datos
      | _ => out_timeout_parcial buf' (Z.of_nat (length f))
      end.

(** ** Fragments of [loop] (lines 480-542) *)

(** The ['r'] case (lines 488-494). *)
Definition loop_r (w : World) : option World :=
  if currentStatus w =? STATUS_READ_RESULT then leerResultado w
  else Some (Serial_println (Str "No hay resultado disponible para leer") w).

(** Lines 516-517 of the ['c'] case: [valor] is the [long] that
    [input.toInt()] returned; it is stored in a [byte]. *)
Definition loop_c (valor : Z) (w : World) : option World :=
  let nuevoTiempo := to_byte valor in
  configurarTiempoSoplado nuevoTiempo w.

(** The periodic part (lines 533-541); the global [lastStatusCheck]
    (line 31) is passed in and out. *)
Definition loop_periodico (lastStatusCheck : Z) (w : World) : option (Z * World) :=
  if to_ulong (millis w - lastStatusCheck) >=? 3000 then
    let lastStatusCheck := millis w in
    if (currentStatus w =? STATUS_READ_RESULT) && resultAvailable w then
      w ← leerResultado w;
      Some (lastStatusCheck, set_resultAvailable false w)
    else Some (lastStatusCheck, w)
  else Some (lastStatusCheck, w).

(** ** More auxiliary definitions for the statements *)

(** Every byte of a stretch of the receive queue arrives after time [t]. *)
Definition llegan_despues (t : Z) (q : list (Z * Z)) : Prop :=
  Forall (fun tb => t < fst tb) q.

(** What [consultarUmbrales] prints for an accepted response
    (lines 300-305). *)
Definition umbrales_out (response : list Z) : list out :=
  [Str "Umbral de bebido: "; Dec (response !!! 2%nat); Str " mg/100ml"; Nl;
   Str "Umbral de ebriedad: "; Dec (response !!! 3%nat); Str " mg/100ml"; Nl].

(** What [leerTiempoSoplado] prints before it sends (lines 344-365). *)
Definition tiempo_envio_out : list out :=
  [Str "Leyendo tiempo de soplado configurado..."; Nl]
    ++ [Str "Comando enviado: "] ++ dump cmd_leerTiempoSoplado 0 9 ++ [Nl].

(** What [leerTiempoSoplado] prints about a response that was read
    (lines 380-388). *)
Definition tiempo_out (response : list Z) : list out :=
  if cabecera_ok response 0x88 then
    [Str "Tiempo de soplado actual: "; Dec (response !!! 2%nat); Str " segundos"; Nl]
  else
    [Str "Respuesta incorrecta al leer tiempo de soplado"; Nl]
      ++ respuesta_out response 9.

(** The state-change command for preheating, as [cambiarEstado] builds it. *)
Definition cmdPrecalentar : list Z :=
  [0xFF; 0x01; 0x87; 0x32; 0x00; 0x00; 0x00; 0x00; 0x46].

(** * Properties *)

(** ** Machine integers *)

Lemma to_byte_range z : is_byte (to_byte z).
Proof. unfold is_byte, to_byte. apply Z.mod_pos_bound. lia. Qed.

Lemma to_int_small z : is_int z -> to_int z = z.
Proof. unfold is_int, to_int. intros H. rewrite Z.mod_small; lia. Qed.

Lemma to_byte_to_int z : to_byte (to_int z) = to_byte z.
Proof. unfold to_byte, to_int. Z.div_mod_to_equations. lia. Qed.

Lemma to_ulong_elapsed a b :
  0 <= a - b < 4294967296 -> to_ulong (to_ulong a - to_ulong b) = a - b.
Proof.
  intros H. unfold to_ulong. rewrite <- Zminus_mod. apply Z.mod_small. exact H.
Qed.

(** ** The three checksum derivations *)

Lemma checksum_not_eq sum : checksum_not sum = (0 - sum) mod 256.
Proof.
  unfold checksum_not. rewrite to_byte_to_int. unfold to_byte.
  f_equal. unfold Z.lnot. lia.
Qed.

Lemma land_255 z : Z.land z 255 = z mod 256.
Proof. change 255 with (Z.ones 8). rewrite Z.land_ones by lia. reflexivity. Qed.

Lemma checksum_mask_eq sum : checksum_mask sum = (0 - sum) mod 256.
Proof.
  unfold checksum_mask. rewrite to_byte_to_int, land_255. unfold to_byte, Z.lnot.
  Z.div_mod_to_equations. lia.
Qed.

Lemma checksum_neg_eq sum : checksum_neg sum = (1 - sum) mod 256.
Proof.
  unfold checksum_neg. rewrite to_byte_to_int.
  unfold to_byte, to_int. Z.div_mod_to_equations. lia.
Qed.

Lemma checksum_mask_not sum : checksum_mask sum = checksum_not sum.
Proof. rewrite checksum_mask_eq, checksum_not_eq. reflexivity. Qed.

Lemma checksum_neg_off_by_one sum :
  checksum_neg sum = (checksum_not sum + 1) mod 256.
Proof.
  rewrite checksum_neg_eq, checksum_not_eq. rewrite Zplus_mod_idemp_l.
  f_equal. lia.
Qed.

Lemma checksum_neg_differs sum : checksum_neg sum <> checksum_not sum.
Proof.
  rewrite checksum_neg_eq, checksum_not_eq. Z.div_mod_to_equations. lia.
Qed.

Lemma neg_as_lnot z : (0 - z) mod 256 = Z.land (Z.lnot z + 1) 0xFF.
Proof. rewrite land_255. f_equal. unfold Z.lnot. lia. Qed.

(** ** The checksum loop *)

Lemma sum_loop_suma (data : list Z) :
  Forall is_byte data ->
  forall (count i : nat) (acc : Z),
    (i + count <= length data)%nat ->
    0 <= acc -> acc + 255 * Z.of_nat count < 2147483648 ->
    sum_loop data i count acc = acc + suma (take count (drop i data)).
Proof.
  intros Hdata. induction count as [|count IH]; intros i acc Hlen Hacc Hbound.
  - simpl. lia.
  - assert (Hi : (i < length data)%nat) by lia.
    pose proof (list_lookup_lookup_total_lt data i Hi) as Hlk.
    assert (Hb : is_byte (data !!! i)).
    { rewrite Forall_forall in Hdata. apply Hdata.
      apply list_elem_of_lookup. eauto. }
    simpl sum_loop. unfold is_byte in Hb.
    rewrite to_int_small by (unfold is_int; lia).
    rewrite IH by lia.
    rewrite (drop_S _ _ _ Hlk). simpl. lia.
Qed.

Lemma sum_1_7_suma (cmd : list Z) :
  length cmd = 9%nat -> Forall is_byte cmd -> sum_1_7 cmd = suma (payload cmd).
Proof.
  intros Hlen Hb. unfold sum_1_7, payload.
  rewrite sum_loop_suma; [lia | assumption | lia | lia | lia].
Qed.

(** A frame assembled as start marker, seven payload bytes and the negated
    sum is well formed. *)
Lemma frame_ok_build (p : list Z) (c : Z) :
  length p = 7%nat -> Forall is_byte p -> c = (0 - suma p) mod 256 ->
  frame_ok (0xFF :: p ++ [c]).
Proof.
  intros Hlen Hp Hc.
  assert (Hpay : payload (0xFF :: p ++ [c]) = p).
  { unfold payload. change (drop 1 (0xFF :: p ++ [c])) with (p ++ [c]).
    apply take_app_length'. symmetry. exact Hlen. }
  assert (H8 : (0xFF :: p ++ [c]) !!! 8%nat = c).
  { change ((p ++ [c]) !!! 7%nat = c).
    rewrite lookup_total_app_r by lia. rewrite Hlen. reflexivity. }
  unfold frame_ok. rewrite Hpay, H8.
  repeat split.
  - simpl. rewrite length_app, Hlen. reflexivity.
  - constructor; [unfold is_byte; lia |].
    apply Forall_app; split; [exact Hp |].
    constructor; [| constructor]. subst c. apply to_byte_range.
  - exact Hc.
  - subst c. apply neg_as_lnot.
  - subst c. rewrite Zplus_mod_idemp_r. replace (suma p + (0 - suma p)) with 0 by lia.
    reflexivity.
Qed.

Ltac cada_uno tac :=
  unfold sin_marca, llegan_antes, llegada; cbn [map app];
  repeat (apply List.Forall_cons; [tac |]); apply List.Forall_nil.

Ltac bytes_ok :=
  repeat (constructor; [unfold is_byte in *; lia |]); try constructor.

Lemma frame_ok_cmdEstado : frame_ok cmdEstado.
Proof. apply (frame_ok_build [0x01; 0x85; 0; 0; 0; 0; 0]); [reflexivity | bytes_ok | reflexivity]. Qed.

Lemma frame_ok_cmdLeerResultado : frame_ok cmdLeerResultado.
Proof. apply (frame_ok_build [0x01; 0x86; 0; 0; 0; 0; 0]); [reflexivity | bytes_ok | reflexivity]. Qed.

Lemma frame_ok_cmdUmbral : frame_ok cmdUmbral.
Proof. apply (frame_ok_build [0x01; 0x90; 0; 0; 0; 0; 0]); [reflexivity | bytes_ok | reflexivity]. Qed.

Lemma cmd_cambiarEstado_eq (s : Z) :
  is_byte s ->
  cmd_cambiarEstado s = 0xFF :: [0x01; 0x87; s; 0; 0; 0; 0] ++ [(0 - (0x01 + 0x87 + s)) mod 256].
Proof.
  intros Hs. unfold cmd_cambiarEstado.
  rewrite sum_1_7_suma; [| reflexivity | bytes_ok].
  rewrite checksum_mask_eq.
  match goal with |- context [suma ?p] =>
    replace (suma p) with (0x01 + 0x87 + s) by (cbn; lia) end.
  reflexivity.
Qed.

Lemma cmd_configurarTiempoSoplado_eq (s : Z) :
  is_byte s ->
  cmd_configurarTiempoSoplado s
  = 0xFF :: [0x01; 0x89; s; 0; 0; 0; 0] ++ [(0 - (0x01 + 0x89 + s)) mod 256].
Proof.
  intros Hs. unfold cmd_configurarTiempoSoplado.
  rewrite sum_1_7_suma; [| reflexivity | bytes_ok].
  rewrite checksum_not_eq.
  match goal with |- context [suma ?p] =>
    replace (suma p) with (0x01 + 0x89 + s) by (cbn; lia) end.
  reflexivity.
Qed.

Lemma frame_ok_cmd_cambiarEstado (s : Z) : is_byte s -> frame_ok (cmd_cambiarEstado s).
Proof.
  intros Hs. rewrite cmd_cambiarEstado_eq by exact Hs.
  apply frame_ok_build; [reflexivity | bytes_ok |]. simpl. f_equal. lia.
Qed.

Lemma frame_ok_cmd_configurarTiempoSoplado (s : Z) :
  is_byte s -> frame_ok (cmd_configurarTiempoSoplado s).
Proof.
  intros Hs. rewrite cmd_configurarTiempoSoplado_eq by exact Hs.
  apply frame_ok_build; [reflexivity | bytes_ok |]. simpl. f_equal. lia.
Qed.

Lemma frame_ok_cmd_leerTiempoSoplado : frame_ok cmd_leerTiempoSoplado.
Proof.
  apply (frame_ok_build [0x01; 0x88; 0; 0; 0; 0; 0]); [reflexivity | bytes_ok | reflexivity].
Qed.

(** ** The world *)

Ltac world_unfold :=
  unfold Serial_println0, Serial_println, Serial_print, SensorSerial_write,
    SensorSerial_flush, delay, vaciar_buffer, set_console, set_rx, set_tx,
    set_now, set_currentStatus, set_resultAvailable in *;
  cbn [now rx tx console currentStatus resultAvailable] in *.

Ltac world_simpl :=
  cbn [now rx tx console currentStatus resultAvailable
       Serial_println0 Serial_println Serial_print SensorSerial_write
       SensorSerial_flush delay vaciar_buffer set_console set_rx set_tx
       set_now set_currentStatus set_resultAvailable] in *.

Lemma world_eta w :
  mkWorld (now w) (rx w) (tx w) (console w) (currentStatus w) (resultAvailable w) = w.
Proof. destruct w; reflexivity. Qed.

Lemma imprimirRespuesta_loop_eq (r : list Z) (count : nat) :
  forall (i : nat) (w : World),
    imprimirRespuesta_loop r i count w = set_console (console w ++ dump r i count) w.
Proof.
  induction count as [|count IH]; intros i w.
  - simpl. rewrite app_nil_r. unfold set_console. symmetry. apply world_eta.
  - simpl imprimirRespuesta_loop. rewrite IH. simpl dump.
    destruct (r !!! i <? 16); unfold Serial_print, set_console; simpl;
      f_equal; rewrite <- ?app_assoc; reflexivity.
Qed.

Lemma imprimirRespuesta_eq (r : list Z) (len : Z) (w : World) :
  imprimirRespuesta r len w = set_console (console w ++ respuesta_out r len) w.
Proof.
  unfold imprimirRespuesta, respuesta_out. rewrite imprimirRespuesta_loop_eq.
  unfold Serial_println0, Serial_print, set_console. simpl.
  f_equal. rewrite <- !app_assoc. reflexivity.
Qed.

Lemma imprimir_cmd_eq (t : string) (cmd : list Z) (w : World) :
  imprimir_cmd t cmd w = set_console (console w ++ [Str t] ++ dump cmd 0 9 ++ [Nl]) w.
Proof.
  unfold imprimir_cmd. rewrite imprimirRespuesta_loop_eq.
  world_unfold. f_equal. rewrite <- !app_assoc. reflexivity.
Qed.

Lemma listo_Some w b q :
  listo w = Some (b, q) -> exists ta, rx w = (ta, b) :: q /\ ta <= now w.
Proof.
  unfold listo. destruct (rx w) as [|[ta b'] q']; [discriminate |].
  destruct (Z.leb_spec ta (now w)); [| discriminate].
  intros [= -> ->]. eauto.
Qed.

Lemma listo_None w :
  listo w = None -> match rx w with [] => True | (ta, _) :: _ => now w < ta end.
Proof.
  unfold listo. destruct (rx w) as [|[ta b'] q']; [trivial |].
  destruct (Z.leb_spec ta (now w)); [discriminate | trivial].
Qed.

Lemma listo_silent w t : silencio_hasta t (rx w) -> now w < t -> listo w = None.
Proof.
  unfold listo, silencio_hasta. destruct (rx w) as [|[ta b] q]; [reflexivity |].
  intros H1 H2. destruct (Z.leb_spec ta (now w)); [lia | reflexivity].
Qed.

(** ** The frame reader, one iteration *)

Lemma leerRespuesta_body_eq (len : Z) (st : lectura) (w : World) :
  leerRespuesta_body len st w =
  match listo w with
  | None => inl (st, delay 10 w)
  | Some (b, q) =>
      let w1 := set_rx q w in
      if startByteFound st then
        let buffer' := <[Z.to_nat (bytesRead st) := to_byte b]> (buffer st) in
        let bytesRead' := to_int (bytesRead st + 1) in
        if bytesRead' >=? len then
          inr (true, buffer',
               set_console (console w ++ out_leidos buffer' bytesRead' len) w1)
        else inl (mkLectura buffer' bytesRead' true, delay 10 w1)
      else if to_byte b =? 0xFF then
        inl (mkLectura (<[0%nat := to_byte b]> (buffer st)) 1 true, w1)
      else inl (st, w1)
  end.
Proof.
  unfold leerRespuesta_body, SensorSerial_available, SensorSerial_read, listo.
  destruct (rx w) as [|[ta b] q]; [reflexivity |].
  simpl arrived. destruct (ta <=? now w); [| reflexivity].
  simpl negb. destruct (startByteFound st); simpl negb; cbv iota.
  - destruct (to_int (bytesRead st + 1) >=? len); [| reflexivity].
    rewrite imprimirRespuesta_eq. unfold out_leidos.
    unfold Serial_println, Serial_print, set_console, set_rx. simpl.
    do 2 f_equal. rewrite <- !app_assoc. reflexivity.
  - reflexivity.
Qed.

Lemma leerRespuesta_timeout_eq (st : lectura) (w : World) :
  leerRespuesta_timeout st w =
  (false, buffer st,
   set_console (console w ++
     (if bytesRead st >? 0 then out_timeout_parcial (buffer st) (bytesRead st)
      else out_timeout_sin_datos)) w).
Proof.
  unfold leerRespuesta_timeout. destruct (bytesRead st >? 0).
  - rewrite imprimirRespuesta_eq. unfold out_timeout_parcial.
    unfold Serial_println, Serial_print, set_console. simpl.
    do 2 f_equal. rewrite <- !app_assoc. reflexivity.
  - reflexivity.
Qed.

(** ** The frame reader, the loop *)

Section LoopInvariant.

Variables startTime expectedLen : Z.
Variable P : lectura -> World -> Prop.
Variable Q : bool * list Z * World -> Prop.

Hypothesis body_keeps :
  forall st w, P st w -> to_ulong (millis w - startTime) < 3000 ->
    match leerRespuesta_body expectedLen st w with
    | inl (st', w') => P st' w'
    | inr r => Q r
    end.

Hypothesis exit_gives :
  forall st w, P st w -> 3000 <= to_ulong (millis w - startTime) ->
    Q (leerRespuesta_timeout st w).

Lemma leerRespuesta_loop_inv :
  forall fuel st w r,
    P st w -> leerRespuesta_loop fuel startTime expectedLen st w = Some r -> Q r.
Proof.
  induction fuel as [|fuel IH]; intros st w r HP Hrun; [discriminate |].
  simpl in Hrun.
  destruct (Z.ltb_spec (to_ulong (millis w - startTime)) 3000) as [Hlt | Hge].
  - pose proof (body_keeps st w HP Hlt) as Hb.
    destruct (leerRespuesta_body expectedLen st w) as [[st' w'] | r'].
    + eapply IH; eassumption.
    + injection Hrun as <-. exact Hb.
  - injection Hrun as <-. apply exit_gives; assumption.
Qed.

End LoopInvariant.

(** The loop ends: every iteration takes a byte off the queue or moves the
    clock 10 ms further into the 3000 ms window. *)
Lemma leerRespuesta_loop_total (t0 len : Z) :
  forall (fuel : nat) (st : lectura) (w : World) (k : Z),
    now w = t0 + 10 * k -> 0 <= k <= 300 ->
    (length (rx w) + Z.to_nat (300 - k) < fuel)%nat ->
    exists r, leerRespuesta_loop fuel (to_ulong t0) len st w = Some r.
Proof.
  induction fuel as [|fuel IH]; intros st w k Hnow Hk Hfuel; [lia |].
  simpl. unfold millis. rewrite to_ulong_elapsed by lia.
  destruct (Z.ltb_spec (now w - t0) 3000) as [Hlt | Hge]; [| eauto].
  rewrite leerRespuesta_body_eq.
  destruct (listo w) as [[b q] |] eqn:Hl.
  - apply listo_Some in Hl as (ta & Hrx & Hta).
    assert (Hlen : length (rx w) = S (length q)) by (rewrite Hrx; reflexivity).
    cbv zeta.
    destruct (startByteFound st).
    + destruct (to_int (bytesRead st + 1) >=? len); [eauto |].
      apply (IH _ _ (k + 1)); simpl; lia.
    + destruct (to_byte b =? 255); apply (IH _ _ k); simpl; lia.
  - apply (IH _ _ (k + 1)); simpl; lia.
Qed.

Lemma leerRespuesta_total (buf : list Z) (len : Z) (w : World) :
  exists r, leerRespuesta buf len w = Some r.
Proof.
  unfold leerRespuesta, millis.
  apply (leerRespuesta_loop_total (now w) len _ _ _ 0); lia.
Qed.

(** The invariant rule for the whole function. *)
Lemma leerRespuesta_inv (P : lectura -> World -> Prop)
    (Q : bool * list Z * World -> Prop) (buf : list Z) (len : Z) (w : World) :
  P (mkLectura buf 0 false) w ->
  (forall st w', P st w' -> to_ulong (millis w' - millis w) < 3000 ->
     match leerRespuesta_body len st w' with
     | inl (st', w'') => P st' w''
     | inr r => Q r
     end) ->
  (forall st w', P st w' -> 3000 <= to_ulong (millis w' - millis w) ->
     Q (leerRespuesta_timeout st w')) ->
  exists r, leerRespuesta buf len w = Some r /\ Q r.
Proof.
  intros H0 Hbody Hexit.
  destruct (leerRespuesta_total buf len w) as [r Hr].
  exists r. split; [exact Hr |].
  unfold leerRespuesta in Hr.
  eapply (leerRespuesta_loop_inv (millis w) len P Q); eassumption.
Qed.

(** ** What the frame reader does with its input *)

Lemma insert_fill (l1 buf : list Z) (x : Z) (n : nat) :
  length l1 = n -> (n < length buf)%nat ->
  <[n := x]> (l1 ++ drop n buf) = (l1 ++ [x]) ++ drop (S n) buf.
Proof.
  intros Hl Hn.
  destruct (lookup_lt_is_Some_2 buf n Hn) as [y Hy].
  rewrite (drop_S _ _ _ Hy).
  rewrite insert_app_r_alt by lia.
  replace (n - length l1)%nat with 0%nat by lia.
  simpl. rewrite <- app_assoc. reflexivity.
Qed.

Lemma bytes_of_app q1 q2 : bytes_of (q1 ++ q2) = bytes_of q1 ++ bytes_of q2.
Proof. unfold bytes_of. apply map_app. Qed.

Lemma bytes_of_length q : length (bytes_of q) = length q.
Proof. unfold bytes_of. apply length_map. Qed.

Lemma con_marca_app f x : con_marca f -> con_marca (f ++ x).
Proof. destruct f as [|[t b] f]; simpl; [tauto | trivial]. Qed.

Lemma leerRespuesta_spec (buf : list Z) (w : World) :
  length buf = 9%nat ->
  exists r g f, leerRespuesta buf 9 w = Some r /\ lectura_de buf w g f r.
Proof.
  intros Hbuf.
  set (P := fun (st : lectura) (w1 : World) =>
    exists g f k,
      rx w = g ++ f ++ rx w1 /\ sin_marca g /\
      tx w1 = tx w /\ currentStatus w1 = currentStatus w /\
      resultAvailable w1 = resultAvailable w /\ console w1 = console w /\
      now w1 = now w + 10 * k /\ 0 <= k <= 300 /\
      buffer st = bytes_of f ++ drop (length f) buf /\
      ((startByteFound st = false /\ f = [] /\ bytesRead st = 0) \/
       (startByteFound st = true /\ con_marca f /\
        bytesRead st = Z.of_nat (length f) /\ (length f < 9)%nat))).
  set (Q := fun r : bool * list Z * World => exists g f, lectura_de buf w g f r).
  destruct (leerRespuesta_inv P Q buf 9 w) as (r & Hr & g & f & HQ).
  - exists [], [], 0. simpl. repeat split; try reflexivity; try lia.
    + constructor.
    + left. auto.
  - intros st w1 (g & f & k & Hrx & Hg & Htx & Hcs & Hra & Hco & Hnow & Hk & Hb & Hph) Hlt.
    unfold millis in Hlt. rewrite to_ulong_elapsed in Hlt by lia.
    rewrite leerRespuesta_body_eq.
    destruct (listo w1) as [[b q] |] eqn:Hl.
    + apply listo_Some in Hl as (ta & Hrx1 & Hta). cbv zeta.
      destruct Hph as [(Hs & -> & Hbr) | (Hs & Hm & Hbr & Hn)]; rewrite Hs.
      * destruct (Z.eqb_spec (to_byte b) 255) as [Hff | Hff].
        -- exists g, [(ta, b)], k. cbn [buffer bytesRead startByteFound].
           world_simpl. rewrite Hrx, Hrx1.
           repeat split; try assumption; try lia.
           ++ rewrite Hb. simpl. destruct buf; [discriminate | reflexivity].
           ++ right. simpl. auto with lia.
        -- exists (g ++ [(ta, b)]), [], k. world_simpl. rewrite Hrx, Hrx1.
           repeat split; try assumption; try lia.
           ++ simpl. rewrite <- app_assoc. reflexivity.
           ++ apply Forall_app. split; [assumption |]. constructor; [exact Hff | constructor].
           ++ left. auto.
      * assert (Hins : <[Z.to_nat (bytesRead st) := to_byte b]> (buffer st)
                       = bytes_of (f ++ [(ta, b)]) ++ drop (length (f ++ [(ta, b)])) buf).
        { rewrite Hbr, Nat2Z.id, Hb, insert_fill by (rewrite ?bytes_of_length; lia).
          rewrite bytes_of_app, length_app. simpl.
          replace (length f + 1)%nat with (S (length f)) by lia. reflexivity. }
        assert (Hrx' : rx w = g ++ (f ++ [(ta, b)]) ++ q).
        { rewrite Hrx, Hrx1, <- !app_assoc. reflexivity. }
        rewrite Hins, Hbr, to_int_small by (unfold is_int; lia).
        destruct (Z.geb_spec (Z.of_nat (length f) + 1) 9) as [Hge | Hnge].
        -- exists g, (f ++ [(ta, b)]). unfold lectura_de. world_simpl.
           assert (Hlf : length (f ++ [(ta, b)]) = 9%nat) by (rewrite length_app; simpl; lia).
           repeat split; try assumption; try lia.
           ++ right. apply con_marca_app. exact Hm.
           ++ rewrite Hco. replace (Z.of_nat (length f) + 1) with 9 by lia. reflexivity.
        -- exists g, (f ++ [(ta, b)]), (k + 1). cbn [buffer bytesRead startByteFound].
           world_simpl.
           repeat split; try assumption; try lia.
           right. repeat split.
           ++ apply con_marca_app. exact Hm.
           ++ rewrite length_app. simpl. lia.
           ++ rewrite length_app. simpl. lia.
    + exists g, f, (k + 1). world_simpl. repeat split; try assumption; lia.
  - intros st w1 (g & f & k & Hrx & Hg & Htx & Hcs & Hra & Hco & Hnow & Hk & Hb & Hph) Hge.
    unfold millis in Hge. rewrite to_ulong_elapsed in Hge by lia.
    rewrite leerRespuesta_timeout_eq. exists g, f. unfold lectura_de. world_simpl.
    destruct Hph as [(Hs & -> & Hbr) | (Hs & Hm & Hbr & Hn)]; rewrite Hbr.
    + simpl. rewrite Hco. repeat split; try assumption; try lia. left; reflexivity.
    + destruct f as [|tb f]; [destruct Hm |].
      replace (Z.of_nat (length (tb :: f)) >? 0) with true
        by (symmetry; apply Z.gtb_lt; simpl length; lia).
      rewrite Hco, <- Hb.
      repeat split; try assumption; try lia.
      right. exact Hm.
  - exists r, g, f. split; assumption.
Qed.

(** The split of the consumed input at the first start marker is unique. *)
Lemma split_unico (g f g' f' : list (Z * Z)) :
  g ++ f = g' ++ f' -> sin_marca g -> sin_marca g' ->
  con_marca f -> (f' = [] \/ con_marca f') -> g = g' /\ f = f'.
Proof.
  revert g'. induction g as [|x g IH]; intros [|y g'] Heq Hg Hg' Hf Hf'.
  - simpl in Heq. auto.
  - simpl in Heq. subst f. destruct y as [t b]. simpl in Hf.
    inversion Hg' as [|? ? Hy _]. simpl in Hy. contradiction.
  - simpl in Heq. subst f'. destruct Hf' as [Hf' | Hf']; [discriminate |].
    destruct x as [t b]. simpl in Hf'.
    inversion Hg as [|? ? Hx _]. simpl in Hx. contradiction.
  - simpl in Heq. injection Heq as -> Heq.
    inversion Hg as [|? ? _ Hg1]. inversion Hg' as [|? ? _ Hg1'].
    destruct (IH g' Heq Hg1 Hg1' Hf Hf') as [-> ->]. auto.
Qed.

(** Timing: when the bytes [g ++ f] have all arrived [D] ms after the call,
    with [D] small enough for the 10 ms polling to collect [f] before the
    three seconds are over, the reader consumes exactly [g ++ f]. *)
Lemma leerRespuesta_alcanza (buf : list Z) (w : World) (g f rest : list (Z * Z)) (D : Z) :
  rx w = g ++ f ++ rest -> sin_marca g -> con_marca f -> (length f <= 9)%nat ->
  llegan_antes (now w + D) (g ++ f) ->
  0 <= D <= 2990 -> D + 10 * Z.of_nat (length f) <= 3010 ->
  ((length f < 9)%nat -> silencio_hasta (now w + 3000) rest) ->
  exists r, leerRespuesta buf 9 w = Some r /\
            rx (snd r) = rest /\ fst (fst r) = (length f =? 9)%nat.
Proof.
  intros Hrx Hg Hf Hn Harr HD HDn Hsil.
  apply Forall_app in Harr as [Harrg Harrf].
  set (P := fun (st : lectura) (w1 : World) =>
    exists k, now w1 = now w + 10 * k /\ 0 <= k /\
      ((startByteFound st = false /\
        exists g2, rx w1 = g2 ++ f ++ rest /\ sin_marca g2 /\
                   llegan_antes (now w + D) g2 /\ 10 * k <= D + 9) \/
       (startByteFound st = true /\
        exists m, (1 <= m < length f)%nat /\ bytesRead st = Z.of_nat m /\
                  rx w1 = drop m f ++ rest /\
                  10 * k <= D + 9 + 10 * (Z.of_nat m - 1)) \/
       (startByteFound st = true /\ (length f < 9)%nat /\ rx w1 = rest /\
        k <= 300))).
  set (Q := fun r : bool * list Z * World =>
    rx (snd r) = rest /\ fst (fst r) = (length f =? 9)%nat).
  apply (leerRespuesta_inv P Q).
  - exists 0. split; [lia |]. split; [lia |]. left. split; [reflexivity |].
    exists g. repeat split; try assumption. lia.
  - intros st w1 (k & Hnow & Hk & Hph) Hlt.
    rewrite leerRespuesta_body_eq.
    destruct Hph as [(Hs & g2 & Hrx1 & Hg2 & Harr2 & Hk2)
                    | [(Hs & m & Hm & Hbr & Hrx1 & Hk2) | (Hs & Hn9 & Hrx1 & Hk3)]].
    + (* before the marker *)
      destruct (listo w1) as [[b q] |] eqn:Hl.
      * apply listo_Some in Hl as (ta & Hrx2 & Hta). cbv zeta. rewrite Hs.
        destruct g2 as [|[t2 b2] g2].
        -- destruct f as [|[tf bf] f']; [destruct Hf |].
           simpl in Hrx1. rewrite Hrx2 in Hrx1. injection Hrx1 as -> -> ->.
           simpl in Hf. rewrite Hf. simpl.
           exists k. world_simpl. split; [lia |]. split; [lia |].
           destruct f' as [|x f'].
           ++ right; right. simpl in *. repeat split; try lia.
           ++ right; left. split; [reflexivity |]. exists 1%nat.
              simpl in *. repeat split; try lia.
        -- simpl in Hrx1. rewrite Hrx2 in Hrx1. injection Hrx1 as -> -> ->.
           inversion Hg2 as [|? ? Hb2 Hg2']. simpl in Hb2.
           inversion Harr2 as [|? ? _ Harr2'].
           destruct (Z.eqb_spec (to_byte b2) 255) as [? | _]; [contradiction |].
           exists k. world_simpl. split; [lia |]. split; [lia |].
           left. split; [assumption |]. exists g2. auto.
      * apply listo_None in Hl.
        assert (Hlate : 10 * k < D).
        { destruct g2 as [|[t2 b2] g2].
          - destruct f as [|[tf bf] f']; [destruct Hf |].
            simpl in Hrx1. rewrite Hrx1 in Hl.
            inversion Harrf as [|? ? Ht _]. simpl in Ht. lia.
          - simpl in Hrx1. rewrite Hrx1 in Hl.
            inversion Harr2 as [|? ? Ht _]. simpl in Ht. lia. }
        exists (k + 1). world_simpl. split; [lia |]. split; [lia |].
        left. split; [assumption |]. exists g2. repeat split; try assumption. lia.
    + (* inside the frame *)
      destruct (lookup_lt_is_Some_2 f m) as [[tm bm] Hlk]; [lia |].
      rewrite (drop_S _ _ _ Hlk) in Hrx1. simpl in Hrx1.
      assert (Htm : tm <= now w + D).
      { rewrite Forall_forall in Harrf.
        apply (Harrf (tm, bm)). apply list_elem_of_lookup. eauto. }
      destruct (listo w1) as [[b q] |] eqn:Hl.
      * apply listo_Some in Hl as (ta & Hrx2 & Hta). cbv zeta. rewrite Hs.
        rewrite Hrx2 in Hrx1. injection Hrx1 as -> -> ->.
        rewrite Hbr, to_int_small by (unfold is_int; lia).
        destruct (Z.geb_spec (Z.of_nat m + 1) 9) as [Hge | Hnge].
        -- unfold Q. world_simpl.
           assert (Hlf : length f = 9%nat) by lia.
           split.
           ++ rewrite drop_ge by lia. reflexivity.
           ++ rewrite Hlf. reflexivity.
        -- exists (k + 1). world_simpl.
           unfold millis in Hlt. rewrite to_ulong_elapsed in Hlt by lia.
           split; [lia |]. split; [lia |].
           destruct (decide (S m < length f)%nat) as [Hin | Hout].
           ++ right; left. split; [reflexivity |]. exists (S m).
              cbn [bytesRead]. repeat split; try lia.
           ++ right; right. cbn [startByteFound].
              repeat split; try lia.
              rewrite drop_ge by lia. reflexivity.
      * apply listo_None in Hl. rewrite Hrx1 in Hl.
        exists (k + 1). world_simpl. split; [lia |]. split; [lia |].
        right; left. split; [assumption |]. exists m.
        rewrite (drop_S _ _ _ Hlk). simpl. repeat split; try lia. assumption.
    + (* after the last byte of [f]: silence *)
      unfold millis in Hlt. rewrite to_ulong_elapsed in Hlt by lia.
      rewrite (listo_silent w1 (now w + 3000)); [| rewrite Hrx1; auto | lia].
      exists (k + 1). world_simpl. split; [lia |]. split; [lia |].
      right; right. repeat split; try assumption; lia.
  - intros st w1 (k & Hnow & Hk & Hph) Hge.
    destruct Hph as [(Hs & g2 & Hrx1 & Hg2 & Harr2 & Hk2)
                    | [(Hs & m & Hm & Hbr & Hrx1 & Hk2) | (Hs & Hn9 & Hrx1 & Hk3)]].
    + unfold millis in Hge. rewrite to_ulong_elapsed in Hge by lia. lia.
    + unfold millis in Hge. rewrite to_ulong_elapsed in Hge by lia. lia.
    + rewrite leerRespuesta_timeout_eq. unfold Q. world_simpl.
      split; [assumption |]. symmetry. apply Nat.eqb_neq. lia.
Qed.

(** Both together: under the timing assumption the reader stores exactly
    [f], dropping exactly [g]. *)
Lemma leerRespuesta_llega (buf : list Z) (w : World) (g f rest : list (Z * Z)) (D : Z) :
  length buf = 9%nat ->
  rx w = g ++ f ++ rest -> sin_marca g -> con_marca f -> (length f <= 9)%nat ->
  llegan_antes (now w + D) (g ++ f) ->
  0 <= D <= 2990 -> D + 10 * Z.of_nat (length f) <= 3010 ->
  ((length f < 9)%nat -> silencio_hasta (now w + 3000) rest) ->
  exists w', leerRespuesta buf 9 w
             = Some ((length f =? 9)%nat, bytes_of f ++ drop (length f) buf, w') /\
             rx w' = rest /\
             lectura_de buf w g f
               ((length f =? 9)%nat, bytes_of f ++ drop (length f) buf, w').
Proof.
  intros Hbuf Hrx Hg Hf Hn Harr HD HDn Hsil.
  destruct (leerRespuesta_alcanza buf w g f rest D) as (r & Hr & Hrest & Hok);
    try assumption.
  destruct (leerRespuesta_spec buf w Hbuf) as (r' & g' & f' & Hr' & Hspec).
  rewrite Hr in Hr'. injection Hr' as <-.
  destruct r as [[ok buf'] w']. simpl in Hrest, Hok. subst ok.
  pose proof Hspec as Hspec'.
  destruct Hspec' as (Hrx' & Hg' & Hf' & Hbuf' & _).
  rewrite Hrest, Hrx in Hrx'.
  rewrite !app_assoc in Hrx'. apply app_inv_tail in Hrx'.
  destruct (split_unico g f g' f' Hrx' Hg Hg' Hf Hf') as [<- <-].
  subst buf'. exists w'. auto.
Qed.

(** ** Claims about the checksum derivations *)

(** C3: the claim says that the three checksum derivations of the source,
    [(byte)((-sum)+1)] of [calcularChecksum], [(byte)((~sum)+1)] and
    [(byte)(~(sum & 0xFF)+1)], give the same byte for every sum.  The code
    does not: the two bitwise forms agree on every sum, but
    [calcularChecksum] is one too high on every sum.  On the payload of the
    state query, [01 85 00 00 00 00 00], it returns [0x7B] where the two
    inline forms and the hard-coded frame [cmdEstado] have [0x7A]. *)
Theorem calcularChecksum_off_by_one :
  calcularChecksum [0x01; 0x85; 0; 0; 0; 0; 0] 7 = 0x7B /\
  checksum_not (sum_1_7 cmdEstado) = 0x7A /\
  checksum_mask (sum_1_7 cmdEstado) = 0x7A /\
  cmdEstado !!! 8%nat = 0x7A /\
  (forall data len,
     calcularChecksum data len = checksum_neg (sum_loop data 0 (Z.to_nat len) 0)) /\
  (forall sum, checksum_mask sum = checksum_not sum) /\
  (forall sum, checksum_neg sum = (checksum_not sum + 1) mod 256) /\
  (forall sum, checksum_neg sum <> checksum_not sum).
Proof.
  repeat split; try reflexivity.
  - apply checksum_mask_not.
  - apply checksum_neg_off_by_one.
  - apply checksum_neg_differs.
Qed.

(** ** Claims about the frame reader *)

Lemma sin_marca_no_frame (a b c : list (Z * Z)) :
  sin_marca (a ++ b ++ c) -> con_marca b -> False.
Proof.
  intros H Hb. apply Forall_app in H as [_ H]. apply Forall_app in H as [H _].
  destruct b as [|[t x] b]; [exact Hb |].
  inversion H as [|? ? Hx _]. simpl in Hx, Hb. contradiction.
Qed.

(** C6, as claimed, fails in two ways.  The state reply
    [FF 85 31 00 00 00 00 00 4A] is a valid frame.  Preceded by the leading
    bytes [12 FF 34], all in the receive buffer in good time, it is not what
    the reader returns: the stray [FF] is taken as the start marker and the
    buffer holds [FF 34 FF 85 31 00 00 00 00].  And with nothing in front of
    it, but reaching the receive buffer 2990 ms after the call, inside the
    3000 ms window, it is not read: the reader stores two bytes, waits
    10 ms and gives up. *)
Lemma leerRespuesta_resincroniza_falla :
  let frame := [0xFF; 0x85; 0x31; 0; 0; 0; 0; 0; 0x4A] in
  checksum_valida frame = true /\
  option_map fst
    (leerRespuesta response0 9
       (mundo STATUS_IDLE (llegada 100 ([0x12; 0xFF; 0x34] ++ frame))))
  = Some (true, [0xFF; 0x34; 0xFF; 0x85; 0x31; 0; 0; 0; 0]) /\
  option_map fst
    (leerRespuesta response0 9 (mundo STATUS_IDLE (llegada 2990 frame)))
  = Some (false, [0xFF; 0x85; 0; 0; 0; 0; 0; 0; 0]).
Proof. repeat split; vm_compute; reflexivity. Qed.

(** C6, amended: for every input stream the bytes that precede the first
    [0xFF] are taken off the queue and never stored; and when leading bytes
    none of which is [0xFF] are followed by nine bytes that begin with
    [0xFF], all of them in the receive buffer no later than 2920 ms after
    the call (the 10 ms polling needs the remaining 80 ms to collect nine
    bytes inside the 3000 ms window), [leerRespuesta] returns [true] with
    exactly those nine bytes. *)
Theorem leerRespuesta_resincroniza :
  (forall (buf : list Z) (w : World),
     length buf = 9%nat ->
     exists ok buf' w' g f,
       leerRespuesta buf 9 w = Some (ok, buf', w') /\
       rx w = g ++ f ++ rx w' /\ sin_marca g /\ (f = [] \/ con_marca f) /\
       buf' = bytes_of f ++ drop (length f) buf) /\
  (forall (buf : list Z) (w : World) (garbage frame rest : list (Z * Z)),
     length buf = 9%nat ->
     rx w = garbage ++ frame ++ rest ->
     sin_marca garbage -> con_marca frame -> length frame = 9%nat ->
     llegan_antes (now w + 2920) (garbage ++ frame) ->
     exists w',
       leerRespuesta buf 9 w = Some (true, bytes_of frame, w') /\
       rx w' = rest /\ tx w' = tx w /\
       console w' = console w ++ out_leidos (bytes_of frame) 9 9).
Proof.
  split.
  - intros buf w Hbuf.
    destruct (leerRespuesta_spec buf w Hbuf) as ([[ok buf'] w'] & g & f & Hr & Hs).
    exists ok, buf', w', g, f. unfold lectura_de in Hs. tauto.
  - intros buf w garbage frame rest Hbuf Hrx Hg Hf Hlen Harr.
    destruct (leerRespuesta_llega buf w garbage frame rest 2920)
      as (w' & Hr & Hrest & Hs); try assumption; try lia.
    rewrite Hlen in Hr, Hs. rewrite drop_ge, app_nil_r in Hr, Hs by lia.
    change (9 =? 9)%nat with true in Hr, Hs.
    exists w'. unfold lectura_de in Hs. tauto.
Qed.

Lemma leerRespuesta_resincroniza_witness :
  let w := mundo STATUS_IDLE
             (llegada 100 [0x12; 0x34] ++
              llegada 120 [0xFF; 0x85; 0x31; 0; 0; 0; 0; 0; 0x4A] ++ []) in
  (exists ok buf' w' g f,
     leerRespuesta response0 9 w = Some (ok, buf', w') /\
     rx w = g ++ f ++ rx w' /\ sin_marca g /\ (f = [] \/ con_marca f) /\
     buf' = bytes_of f ++ drop (length f) response0) /\
  (exists w',
     leerRespuesta response0 9 w
     = Some (true, [0xFF; 0x85; 0x31; 0; 0; 0; 0; 0; 0x4A], w') /\
     rx w' = [] /\ tx w' = [] /\
     console w' = [] ++ out_leidos [0xFF; 0x85; 0x31; 0; 0; 0; 0; 0; 0x4A] 9 9).
Proof.
  intros w. split.
  - apply (proj1 leerRespuesta_resincroniza response0 w). reflexivity.
  - apply (proj2 leerRespuesta_resincroniza response0 w
             (llegada 100 [0x12; 0x34])
             (llegada 120 [0xFF; 0x85; 0x31; 0; 0; 0; 0; 0; 0x4A]) []).
    + reflexivity.
    + reflexivity.
    + cada_uno ltac:(vm_compute; congruence).
    + reflexivity.
    + reflexivity.
    + cada_uno ltac:(simpl; lia).
Defined.

(** C7, as claimed, fails in its scenario.  A start marker and four more
    bytes, [FF 85 31 00 00], reach the receive buffer 2990 ms after the
    call, inside the 3000 ms window, and silence follows.  The reader takes
    the marker and, after the [continue], one more byte; it then waits
    10 ms and the window is over: it reports two partial bytes, not five,
    and the other three stay in the queue. *)
Lemma leerRespuesta_parcial_tardio :
  let w := mundo STATUS_IDLE (llegada 2990 [0xFF; 0x85; 0x31; 0; 0]) in
  option_map (fun r => (fst r, rx (snd r), console (snd r)))
    (leerRespuesta response0 9 w)
  = Some ((false, [0xFF; 0x85; 0; 0; 0; 0; 0; 0; 0]),
          llegada 2990 [0x31; 0; 0],
          out_timeout_parcial [0xFF; 0x85; 0; 0; 0; 0; 0; 0; 0] 2).
Proof. vm_compute. reflexivity. Qed.

(** C7, amended: when [leerRespuesta] gives up (it returns [false], 3000 ms
    after the call), what it reports depends on whether a start marker was
    read: with a marker read and [n < 9] bytes stored it prints
    "Bytes parciales recibidos: n" and the [n] bytes; with no marker read it
    prints the time-out line only.  A start marker and four more bytes, all
    of them in the receive buffer no later than 2960 ms after the call (the
    10 ms polling needs the remaining 40 ms to collect five bytes), followed
    by silence until the window is over, give the partial report with
    count 5; bytes without any marker give the report without data. *)
Theorem leerRespuesta_timeout_clasifica :
  (forall (buf : list Z) (w : World),
     length buf = 9%nat ->
     exists ok buf' w' g f,
       leerRespuesta buf 9 w = Some (ok, buf', w') /\
       rx w = g ++ f ++ rx w' /\ sin_marca g /\
       (ok = false ->
        now w' = now w + 3000 /\ (length f < 9)%nat /\
        ((f = [] /\ console w' = console w ++ out_timeout_sin_datos) \/
         (con_marca f /\ buf' = bytes_of f ++ drop (length f) buf /\
          console w' = console w ++ out_timeout_parcial buf' (Z.of_nat (length f)))))) /\
  (forall (buf : list Z) (w : World) (f rest : list (Z * Z)),
     length buf = 9%nat ->
     rx w = f ++ rest -> con_marca f -> length f = 5%nat ->
     llegan_antes (now w + 2960) f -> silencio_hasta (now w + 3000) rest ->
     exists w',
       leerRespuesta buf 9 w = Some (false, bytes_of f ++ drop 5 buf, w') /\
       rx w' = rest /\
       console w' = console w ++ out_timeout_parcial (bytes_of f ++ drop 5 buf) 5) /\
  (forall (buf : list Z) (w : World),
     length buf = 9%nat -> sin_marca (rx w) ->
     exists w',
       leerRespuesta buf 9 w = Some (false, buf, w') /\
       console w' = console w ++ out_timeout_sin_datos).
Proof.
  split; [| split].
  - intros buf w Hbuf.
    destruct (leerRespuesta_spec buf w Hbuf) as ([[ok buf'] w'] & g & f & Hr & Hs).
    exists ok, buf', w', g, f. unfold lectura_de in Hs.
    destruct Hs as (Hrx & Hg & Hf & Hb & _ & _ & _ & Hok).
    split; [exact Hr |]. split; [exact Hrx |]. split; [exact Hg |].
    intros ->. destruct Hok as (Hn & Hnow & Hco).
    split; [exact Hnow |]. split; [exact Hn |].
    destruct Hf as [-> | Hf]; [left; auto |].
    right. destruct f; [destruct Hf | auto].
  - intros buf w f rest Hbuf Hrx Hf Hlen Harr Hsil.
    destruct (leerRespuesta_llega buf w [] f rest 2960)
      as (w' & Hr & Hrest & Hs); try assumption; try lia.
    + constructor.
    + intros _. exact Hsil.
    + rewrite Hlen in Hr, Hs. change (5 =? 9)%nat with false in Hr, Hs.
      exists w'. unfold lectura_de in Hs.
      destruct Hs as (_ & _ & _ & _ & _ & _ & _ & _ & _ & Hco).
      rewrite Hlen in Hco.
      destruct f; [destruct Hf |]. auto.
  - intros buf w Hbuf Hsin.
    destruct (leerRespuesta_spec buf w Hbuf) as ([[ok buf'] w'] & g & f & Hr & Hs).
    unfold lectura_de in Hs.
    destruct Hs as (Hrx & Hg & Hf & Hb & _ & _ & _ & Hok).
    destruct Hf as [-> | Hf].
    + simpl in Hb. subst buf'. destruct ok; [destruct Hok; discriminate |].
      exists w'. tauto.
    + exfalso. rewrite Hrx in Hsin. eapply sin_marca_no_frame; eassumption.
Qed.

Lemma leerRespuesta_timeout_clasifica_witness :
  let w := mundo STATUS_IDLE (llegada 100 [0xFF; 0x85; 0x31; 0; 0] ++ []) in
  let w_ruido := mundo STATUS_IDLE (llegada 100 [0x12; 0x34]) in
  (exists ok buf' w' g f,
     leerRespuesta response0 9 w = Some (ok, buf', w') /\
     rx w = g ++ f ++ rx w' /\ sin_marca g /\
     (ok = false ->
      now w' = now w + 3000 /\ (length f < 9)%nat /\
      ((f = [] /\ console w' = console w ++ out_timeout_sin_datos) \/
       (con_marca f /\ buf' = bytes_of f ++ drop (length f) response0 /\
        console w' = console w ++ out_timeout_parcial buf' (Z.of_nat (length f)))))) /\
  (exists w',
     leerRespuesta response0 9 w
     = Some (false, [0xFF; 0x85; 0x31; 0; 0] ++ drop 5 response0, w') /\
     rx w' = [] /\
     console w' = [] ++ out_timeout_parcial
                          ([0xFF; 0x85; 0x31; 0; 0] ++ drop 5 response0) 5) /\
  (exists w',
     leerRespuesta response0 9 w_ruido = Some (false, response0, w') /\
     console w' = [] ++ out_timeout_sin_datos).
Proof.
  intros w w_ruido. split; [| split].
  - apply (proj1 leerRespuesta_timeout_clasifica response0 w). reflexivity.
  - apply (proj1 (proj2 leerRespuesta_timeout_clasifica) response0 w
             (llegada 100 [0xFF; 0x85; 0x31; 0; 0]) []).
    + reflexivity.
    + reflexivity.
    + reflexivity.
    + reflexivity.
    + cada_uno ltac:(simpl; lia).
    + exact I.
  - apply (proj2 (proj2 leerRespuesta_timeout_clasifica) response0 w_ruido).
    + reflexivity.
    + cada_uno ltac:(vm_compute; congruence).
Defined.

(** C10, as claimed, fails for bytes that come late.  A [0xFF] reaches the
    receive buffer 100 ms after the call and is taken as the start marker;
    the state reply [FF 85 31 00 00 00 00 00 4A] follows at 2995 ms, inside
    the 3000 ms window.  The reader looks at the buffer every 10 ms, for
    the last time at 2990 ms: none of the nine bytes is stored, the call
    returns [false] at 3000 ms with the marker alone in the buffer, and the
    nine bytes are still in the queue. *)
Lemma leerRespuesta_tardios_sin_leer :
  let reply := llegada 2995 [0xFF; 0x85; 0x31; 0; 0; 0; 0; 0; 0x4A] in
  let w := mundo STATUS_IDLE ((100, 0xFF) :: reply) in
  option_map (fun r => (fst r, rx (snd r), now (snd r)))
    (leerRespuesta response0 9 w)
  = Some ((false, [0xFF; 0; 0; 0; 0; 0; 0; 0; 0]), reply, 3000).
Proof. vm_compute. reflexivity. Qed.

(** C10, amended: whatever the input, the bytes taken off the queue split
    into the bytes before the first [0xFF], which are dropped, and the
    bytes from that [0xFF] on, which are stored one after the other from
    position 0, whatever their values: every byte that the reader reads
    after the start marker is stored at the next position, further [0xFF]
    bytes included, and the reader does not look for a start marker again.
    When the marker and the eight bytes after it are all in the receive
    buffer no later than 2920 ms after the call, those eight bytes fill
    positions 1 to 8 and the call returns [true]; so a frame that follows a
    stray [0xFF] lands shifted in the buffer.  Bytes that come later than
    that may not be read at all. *)
Theorem leerRespuesta_no_resincroniza :
  (forall (buf : list Z) (w : World),
     length buf = 9%nat ->
     exists ok buf' w' g f,
       leerRespuesta buf 9 w = Some (ok, buf', w') /\
       rx w = g ++ f ++ rx w' /\ sin_marca g /\ (f = [] \/ con_marca f) /\
       (length f <= 9)%nat /\
       buf' = bytes_of f ++ drop (length f) buf /\
       (ok = true <-> length f = 9%nat)) /\
  (forall (buf : list Z) (w : World) (g : list (Z * Z)) (t b : Z)
          (tail : list (Z * Z)),
     length buf = 9%nat ->
     rx w = g ++ (t, b) :: tail ->
     sin_marca g -> to_byte b = 0xFF -> (8 <= length tail)%nat ->
     llegan_antes (now w + 2920) (g ++ (t, b) :: take 8 tail) ->
     exists w',
       leerRespuesta buf 9 w = Some (true, 0xFF :: bytes_of (take 8 tail), w') /\
       rx w' = drop 8 tail).
Proof.
  split.
  - intros buf w Hbuf.
    destruct (leerRespuesta_spec buf w Hbuf) as ([[ok buf'] w'] & g & f & Hr & Hs).
    exists ok, buf', w', g, f. unfold lectura_de in Hs.
    destruct Hs as (Hrx & Hg & Hf & Hb & _ & _ & _ & Hok).
    repeat (split; [assumption |]).
    destruct ok.
    + destruct Hok as (Hlen & _). split; [lia |]. tauto.
    + destruct Hok as (Hlen & _). split; [lia |].
      split; [assumption |]. split; [intros H; discriminate H | intros H; lia].
  - intros buf w g t b tail Hbuf Hrx Hg Hb Htail Harr.
    assert (Hlen : length ((t, b) :: take 8 tail) = 9%nat).
    { simpl. rewrite length_take. lia. }
    destruct (leerRespuesta_llega buf w g ((t, b) :: take 8 tail) (drop 8 tail) 2920)
      as (w' & Hr & Hrest & _); try assumption; try lia.
    + rewrite Hrx. simpl. rewrite take_drop. reflexivity.
    + rewrite Hlen in Hr. rewrite drop_ge, app_nil_r in Hr by lia.
      change (9 =? 9)%nat with true in Hr.
      unfold bytes_of in Hr. simpl map in Hr. rewrite Hb in Hr.
      exists w'. auto.
Qed.

(** A stray [0xFF] in front of the state reply [FF 85 31 00 00 00 00 00 4A]:
    the buffer holds the reply shifted by one, and its last byte stays in
    the queue. *)
Lemma leerRespuesta_no_resincroniza_witness :
  let w := mundo STATUS_IDLE
             ([] ++ (100, 0xFF) :: llegada 100 [0xFF; 0x85; 0x31; 0; 0; 0; 0; 0; 0x4A]) in
  (exists ok buf' w' g f,
     leerRespuesta response0 9 w = Some (ok, buf', w') /\
     rx w = g ++ f ++ rx w' /\ sin_marca g /\ (f = [] \/ con_marca f) /\
     (length f <= 9)%nat /\
     buf' = bytes_of f ++ drop (length f) response0 /\
     (ok = true <-> length f = 9%nat)) /\
  (exists w',
     leerRespuesta response0 9 w
     = Some (true, [0xFF; 0xFF; 0x85; 0x31; 0; 0; 0; 0; 0], w') /\
     rx w' = [(100, 0x4A)]).
Proof.
  intros w. split.
  - apply (proj1 leerRespuesta_no_resincroniza response0 w). reflexivity.
  - apply (proj2 leerRespuesta_no_resincroniza response0 w
             [] 100 0xFF (llegada 100 [0xFF; 0x85; 0x31; 0; 0; 0; 0; 0; 0x4A])).
    + reflexivity.
    + reflexivity.
    + apply List.Forall_nil.
    + reflexivity.
    + simpl. lia.
    + cbn [take llegada map app]. cada_uno ltac:(simpl; lia).
Defined.

(** ** The command functions return, and what they transmit *)

Lemma leerRespuesta_frame (buf : list Z) (w : World) (ok : bool) (buf' : list Z) (w' : World) :
  length buf = 9%nat ->
  leerRespuesta buf 9 w = Some (ok, buf', w') ->
  tx w' = tx w /\ currentStatus w' = currentStatus w /\
  resultAvailable w' = resultAvailable w /\
  now w <= now w' <= now w + 3000 /\ length buf' = 9%nat.
Proof.
  intros Hbuf Hr.
  destruct (leerRespuesta_spec buf w Hbuf) as (r & g & f & Hr' & Hs).
  rewrite Hr in Hr'. injection Hr' as <-. unfold lectura_de in Hs.
  destruct Hs as (_ & _ & _ & Hb & Htx & Hcs & Hra & Hok).
  assert (Hlf : (length f <= 9)%nat) by (destruct ok; lia).
  repeat split; try assumption.
  - destruct ok; lia.
  - destruct ok; lia.
  - subst buf'. rewrite length_app, bytes_of_length, length_drop. lia.
Qed.

Lemma take_9 (cmd : list Z) : length cmd = 9%nat -> firstn (Z.to_nat 9) cmd = cmd.
Proof. intros H. apply firstn_all2. rewrite H. reflexivity. Qed.

Lemma enviarComando_facts (cmd : list Z) (w : World) :
  length cmd = 9%nat ->
  tx (enviarComando cmd 9 w) = tx w ++ cmd /\
  now (enviarComando cmd 9 w) = now w + 500 /\
  currentStatus (enviarComando cmd 9 w) = currentStatus w /\
  console (enviarComando cmd 9 w) = console w.
Proof.
  intros H. unfold enviarComando. world_simpl. rewrite take_9 by exact H. auto.
Qed.

Ltac casos :=
  repeat match goal with
         | |- context [if ?c then _ else _] => destruct c
         end.

Lemma verificarEstado_total (w : World) :
  exists w', verificarEstado w = Some w' /\
             tx w' = tx w ++ cmdEstado /\
             now w + 500 <= now w' <= now w + 3500.
Proof.
  unfold verificarEstado.
  destruct (enviarComando_facts cmdEstado w eq_refl) as (Htx & Hnow & _).
  destruct (leerRespuesta_total response0 9 (enviarComando cmdEstado 9 w))
    as [[[ok response] w2] Hr].
  rewrite Hr. simpl.
  destruct (leerRespuesta_frame response0 _ _ _ _ eq_refl Hr) as (Htx2 & _ & _ & Hnow2 & _).
  rewrite <- Htx, <- Htx2. rewrite Hnow in Hnow2.
  casos; eexists; (split; [reflexivity |]); world_simpl; split; (reflexivity || lia).
Qed.

Lemma cambiarEstado_envio_facts (s : Z) (w : World) :
  tx (cambiarEstado_envio s w) = tx w ++ cmd_cambiarEstado s /\
  now (cambiarEstado_envio s w) = now w + 800 /\
  currentStatus (cambiarEstado_envio s w) = currentStatus w.
Proof.
  unfold cambiarEstado_envio. rewrite imprimir_cmd_eq. world_simpl.
  rewrite take_9 by reflexivity. auto.
Qed.

Lemma leerTiempoSoplado_envio_facts (w : World) :
  tx (leerTiempoSoplado_envio w) = tx w ++ cmd_leerTiempoSoplado /\
  now (leerTiempoSoplado_envio w) = now w + 800 /\
  currentStatus (leerTiempoSoplado_envio w) = currentStatus w.
Proof.
  unfold leerTiempoSoplado_envio. rewrite imprimir_cmd_eq. world_simpl.
  rewrite take_9 by reflexivity. auto.
Qed.

Lemma configurarTiempoSoplado_envio_facts (s : Z) (w : World) :
  tx (configurarTiempoSoplado_envio s w) = tx w ++ cmd_configurarTiempoSoplado s /\
  now (configurarTiempoSoplado_envio s w) = now w + 800 /\
  currentStatus (configurarTiempoSoplado_envio s w) = currentStatus w.
Proof.
  unfold configurarTiempoSoplado_envio. rewrite imprimir_cmd_eq. world_simpl.
  rewrite take_9 by reflexivity. auto.
Qed.

Lemma cambiarEstado_total (s : Z) (w : World) :
  exists w', cambiarEstado s w = Some w' /\ tx w' = tx w ++ cmd_cambiarEstado s.
Proof.
  unfold cambiarEstado.
  destruct (cambiarEstado_envio_facts s w) as (Htx & _).
  destruct (leerRespuesta_total response0 9 (cambiarEstado_envio s w))
    as [[[ok response] w2] Hr].
  rewrite Hr. simpl.
  destruct (leerRespuesta_frame response0 _ _ _ _ eq_refl Hr) as (Htx2 & _).
  rewrite <- Htx, <- Htx2.
  casos; eexists; (split; [reflexivity |]); world_simpl; reflexivity.
Qed.

Lemma leerResultado_total (w : World) :
  exists w', leerResultado w = Some w' /\ tx w' = tx w ++ cmdLeerResultado.
Proof.
  unfold leerResultado.
  destruct (enviarComando_facts cmdLeerResultado w eq_refl) as (Htx & _).
  destruct (leerRespuesta_total response0 9 (enviarComando cmdLeerResultado 9 w))
    as [[[ok response] w2] Hr].
  rewrite Hr. simpl.
  destruct (leerRespuesta_frame response0 _ _ _ _ eq_refl Hr) as (Htx2 & _).
  rewrite <- Htx, <- Htx2.
  casos; eexists; (split; [reflexivity |]); world_simpl; reflexivity.
Qed.

Lemma consultarUmbrales_total (w : World) :
  exists w', consultarUmbrales w = Some w' /\ tx w' = tx w ++ cmdUmbral.
Proof.
  unfold consultarUmbrales.
  destruct (enviarComando_facts cmdUmbral w eq_refl) as (Htx & _).
  destruct (leerRespuesta_total response0 9 (enviarComando cmdUmbral 9 w))
    as [[[ok response] w2] Hr].
  rewrite Hr. simpl.
  destruct (leerRespuesta_frame response0 _ _ _ _ eq_refl Hr) as (Htx2 & _).
  rewrite <- Htx, <- Htx2.
  casos; eexists; (split; [reflexivity |]); world_simpl; reflexivity.
Qed.

Lemma leerTiempoSoplado_total (w : World) :
  exists w', leerTiempoSoplado w = Some w' /\ tx w' = tx w ++ cmd_leerTiempoSoplado.
Proof.
  unfold leerTiempoSoplado.
  destruct (leerTiempoSoplado_envio_facts w) as (Htx & _).
  destruct (leerRespuesta_total response0 9 (leerTiempoSoplado_envio w))
    as [[[ok response] w2] Hr].
  rewrite Hr. simpl.
  destruct (leerRespuesta_frame response0 _ _ _ _ eq_refl Hr) as (Htx2 & _).
  rewrite <- Htx, <- Htx2.
  casos; eexists; (split; [reflexivity |]); rewrite ?imprimirRespuesta_eq;
    world_simpl; reflexivity.
Qed.

Lemma configurarTiempoSoplado_total (s : Z) (w : World) :
  1 <= s <= 10 ->
  exists w', configurarTiempoSoplado s w = Some w' /\
             tx w' = tx w ++ cmd_configurarTiempoSoplado s.
Proof.
  intros Hs. unfold configurarTiempoSoplado.
  destruct (Z.ltb_spec s 1); [lia |]. destruct (Z.gtb_spec s 10); [lia |].
  cbn [orb].
  destruct (configurarTiempoSoplado_envio_facts s w) as (Htx & _).
  destruct (leerRespuesta_total response0 9 (configurarTiempoSoplado_envio s w))
    as [[[ok response] w2] Hr].
  rewrite Hr. simpl.
  destruct (leerRespuesta_frame response0 _ _ _ _ eq_refl Hr) as (Htx2 & _).
  rewrite <- Htx, <- Htx2.
  casos; eexists; (split; [reflexivity |]); rewrite ?imprimirRespuesta_eq;
    world_simpl; reflexivity.
Qed.

Lemma probarComunicacion_tx (w : World) :
  tx (probarComunicacion w) = tx w ++ cmdTest.
Proof.
  unfold probarComunicacion. rewrite imprimirRespuesta_loop_eq.
  unfold enviarComando. world_simpl. rewrite take_9 by reflexivity. reflexivity.
Qed.

(** The waiting loop ends: a pass takes between one and four seconds. *)
Lemma esperarEstado_loop_total (t0 estado T : Z) :
  0 <= T < 2147483648 ->
  forall (fuel : nat) (w : World),
    0 <= now w - t0 <= T + 4000 ->
    (1 <= fuel)%nat ->
    T - (now w - t0) <= 1000 * (Z.of_nat fuel - 1) ->
    exists w' n,
      esperarEstado_loop fuel (to_ulong t0) estado T w = Some w' /\
      tx w' = tx w ++ concat (replicate n cmdEstado).
Proof.
  intros HT. induction fuel as [|fuel IH]; intros w He Hf Hm; [lia |].
  simpl. unfold millis. rewrite to_ulong_elapsed by lia.
  replace (to_ulong T) with T by (unfold to_ulong; rewrite Z.mod_small; lia).
  destruct (Z.ltb_spec (now w - t0) T) as [Hlt | Hge].
  - destruct (verificarEstado_total w) as (w1 & H1 & Htx1 & Hnow1).
    rewrite H1. simpl.
    destruct (currentStatus w1 =? estado).
    + exists w1, 1%nat. split; [reflexivity |].
      cbn [replicate concat]. rewrite app_nil_r. exact Htx1.
    + destruct (IH (delay 500 w1)) as (w' & n & Hr & Htx'); world_simpl; try lia.
      exists w', (S n). split; [exact Hr |].
      rewrite Htx', Htx1. cbn [replicate concat]. rewrite <- app_assoc. reflexivity.
  - exists (Serial_println (Str "Timeout esperando estado deseado.") w), 0%nat.
    split; [reflexivity |]. cbn [replicate concat]. rewrite app_nil_r. reflexivity.
Qed.

Lemma esperarEstado_total (estado T : Z) (w : World) :
  0 <= T < 2147483648 ->
  exists w' n, esperarEstado estado T w = Some w' /\
               tx w' = tx w ++ concat (replicate n cmdEstado).
Proof.
  intros HT. unfold esperarEstado, millis.
  apply esperarEstado_loop_total; try lia.
  replace (to_ulong T) with T by (unfold to_ulong; rewrite Z.mod_small; lia).
  rewrite Nat2Z.inj_add, Z2Nat.id by (apply Z.div_pos; lia).
  Z.div_mod_to_equations. lia.
Qed.

Lemma iniciarPrueba_consulta_total (w : World) :
  exists w1, iniciarPrueba_consulta w = Some w1 /\ tx w1 = tx w ++ cmdEstado.
Proof.
  unfold iniciarPrueba_consulta.
  match goal with |- context [enviarComando cmdEstado 9 ?x] => set (wa := x) end.
  destruct (enviarComando_facts cmdEstado wa eq_refl) as (Htx & _).
  destruct (leerRespuesta_total response0 9 (enviarComando cmdEstado 9 wa))
    as [[[ok response] w2] Hr].
  rewrite Hr. simpl.
  destruct (leerRespuesta_frame response0 _ _ _ _ eq_refl Hr) as (Htx2 & _).
  replace (tx w) with (tx wa) by (subst wa; reflexivity).
  rewrite <- Htx, <- Htx2.
  casos; eexists; (split; [reflexivity |]); world_simpl; reflexivity.
Qed.

(** ** Well-formed transmissions *)

Lemma tx_extends_one (w w' : World) (f : list Z) :
  tx w' = tx w ++ f -> frame_ok f -> tx_extends w w'.
Proof.
  intros H Hf. exists [f]. simpl. rewrite app_nil_r. split; [exact H |].
  constructor; [exact Hf | constructor].
Qed.

Lemma tx_extends_trans (w1 w2 w3 : World) :
  tx_extends w1 w2 -> tx_extends w2 w3 -> tx_extends w1 w3.
Proof.
  intros (fs1 & H1 & Hf1) (fs2 & H2 & Hf2). exists (fs1 ++ fs2).
  rewrite H2, H1, concat_app, <- app_assoc. split; [reflexivity |].
  apply Forall_app; auto.
Qed.

Lemma tx_extends_same (w w' : World) : tx w' = tx w -> tx_extends w w'.
Proof.
  intros H. exists []. simpl. rewrite app_nil_r. split; [exact H | constructor].
Qed.

Lemma tx_extends_replicate (w w' : World) (n : nat) (f : list Z) :
  tx w' = tx w ++ concat (replicate n f) -> frame_ok f -> tx_extends w w'.
Proof.
  intros H Hf. exists (replicate n f). split; [exact H |].
  apply Forall_replicate. exact Hf.
Qed.

Lemma bind_Some {A B : Type} (x : A) (k : A -> option B) : (Some x ≫= k) = k x.
Proof. reflexivity. Qed.

Lemma iniciarPrueba_total (w : World) :
  exists w', iniciarPrueba w = Some w' /\ tx_extends w w'.
Proof.
  unfold iniciarPrueba.
  destruct (iniciarPrueba_consulta_total w) as (w1 & H1 & Htx1).
  rewrite H1, bind_Some.
  pose proof (tx_extends_one w w1 _ Htx1 frame_ok_cmdEstado) as E1.
  destruct ((currentStatus w1 =? STATUS_IDLE) || (currentStatus w1 =? STATUS_READ_RESULT)).
  - destruct (esperarEstado_total STATUS_IDLE 10000 w1) as (w2 & n & H2 & Htx2); [lia |].
    rewrite H2, bind_Some.
    destruct (cambiarEstado_total STATUS_PREHEATING w2) as (w3 & H3 & Htx3).
    rewrite H3, bind_Some.
    eexists. split; [reflexivity |].
    apply (tx_extends_trans _ w1); [exact E1 |].
    apply (tx_extends_trans _ w2).
    + eapply tx_extends_replicate; [exact Htx2 | exact frame_ok_cmdEstado].
    + eapply tx_extends_one; [world_simpl; exact Htx3 |].
      apply frame_ok_cmd_cambiarEstado. unfold is_byte, STATUS_PREHEATING. lia.
  - eexists. split; [reflexivity |].
    apply (tx_extends_trans _ w1); [exact E1 |].
    apply tx_extends_same. reflexivity.
Qed.

Lemma bytes_of_bytes (q : list (Z * Z)) : Forall is_byte (bytes_of q).
Proof.
  unfold bytes_of. induction q as [|x q IH]; simpl; constructor;
    [apply to_byte_range | exact IH].
Qed.

Lemma leerRespuesta_bytes (buf : list Z) (w : World) (buf' : list Z) (w' : World) :
  length buf = 9%nat ->
  leerRespuesta buf 9 w = Some (true, buf', w') -> Forall is_byte buf'.
Proof.
  intros Hbuf Hr.
  destruct (leerRespuesta_spec buf w Hbuf) as (r & g & f & Hr' & Hs).
  rewrite Hr in Hr'. injection Hr' as <-. unfold lectura_de in Hs.
  destruct Hs as (_ & _ & _ & Hb & _ & _ & _ & Hlen & _).
  subst buf'. rewrite drop_ge, app_nil_r by lia. apply bytes_of_bytes.
Qed.

Lemma lookup_total_byte (l : list Z) (i : nat) :
  Forall is_byte l -> is_byte (l !!! i).
Proof.
  intros H. destruct (decide (i < length l)%nat) as [Hi | Hi].
  - rewrite Forall_forall in H. apply H. apply list_elem_of_lookup.
    exists i. apply list_lookup_lookup_total_lt. exact Hi.
  - rewrite list_lookup_total_alt, lookup_ge_None_2 by lia.
    simpl. unfold is_byte. change (inhabitant : Z) with 0. lia.
Qed.

(** Two bytes put together with [<<] and [|]. *)
Lemma lor_shiftl_bytes (a b : Z) :
  is_byte a -> is_byte b -> Z.lor (Z.shiftl a 8) b = 256 * a + b.
Proof.
  unfold is_byte. intros Ha Hb.
  assert (Hland : Z.land (Z.shiftl a 8) b = 0).
  { apply Z.bits_inj'. intros n Hn.
    rewrite Z.land_spec, Z.bits_0.
    destruct (Z.ltb_spec n 8) as [Hlt | Hge].
    - rewrite Z.shiftl_spec by lia. rewrite Z.testbit_neg_r by lia. reflexivity.
    - replace b with (b mod 2 ^ 8) by (apply Z.mod_small; lia).
      rewrite Z.mod_pow2_bits_high by lia. apply andb_false_r. }
  rewrite <- Z.lxor_lor by exact Hland.
  rewrite <- Z.add_nocarry_lxor by exact Hland.
  rewrite Z.shiftl_mul_pow2 by lia. lia.
Qed.

(** ** Claims about the outbound frames *)

Lemma sum_1_7_frame (p : list Z) (c : Z) :
  length p = 7%nat -> Forall is_byte p -> is_byte c ->
  sum_1_7 (0xFF :: p ++ [c]) = suma p.
Proof.
  intros Hlen Hp Hc. rewrite sum_1_7_suma.
  - unfold payload. change (drop 1 (0xFF :: p ++ [c])) with (p ++ [c]).
    rewrite take_app_length' by (symmetry; exact Hlen). reflexivity.
  - simpl. rewrite length_app, Hlen. reflexivity.
  - constructor; [unfold is_byte; lia |]. apply Forall_app. split; [exact Hp |].
    constructor; [exact Hc | constructor].
Qed.

(** C1: for every 7-byte payload [p] the checksum byte that the inline
    derivations compute for the frame [FF p _] is [(0 - sum p) mod 256], which
    is [((~sum p) + 1) & 0xFF], and it closes the sum to zero modulo 256; the
    hard-coded frames carry that byte too; and every command function
    returns having added only whole frames of that kind to what was
    transmitted. *)
Theorem outbound_checksum :
  (forall p : list Z,
     length p = 7%nat -> Forall is_byte p ->
     let cmd := 0xFF :: p ++ [0] in
     checksum_mask (sum_1_7 cmd) = (0 - suma p) mod 256 /\
     checksum_not (sum_1_7 cmd) = (0 - suma p) mod 256 /\
     (0 - suma p) mod 256 = Z.land (Z.lnot (suma p) + 1) 0xFF /\
     (suma p + (0 - suma p) mod 256) mod 256 = 0) /\
  (frame_ok cmdEstado /\ frame_ok cmdLeerResultado /\ frame_ok cmdUmbral /\
   frame_ok cmdTest /\ frame_ok cmd_leerTiempoSoplado) /\
  (forall s, is_byte s ->
     frame_ok (cmd_cambiarEstado s) /\ frame_ok (cmd_configurarTiempoSoplado s)) /\
  (forall w, exists w', verificarEstado w = Some w' /\ tx_extends w w') /\
  (forall w, exists w', leerResultado w = Some w' /\ tx_extends w w') /\
  (forall w, exists w', consultarUmbrales w = Some w' /\ tx_extends w w') /\
  (forall w, exists w', leerTiempoSoplado w = Some w' /\ tx_extends w w') /\
  (forall w, tx_extends w (probarComunicacion w)) /\
  (forall s w, is_byte s -> exists w', cambiarEstado s w = Some w' /\ tx_extends w w') /\
  (forall s w, exists w', configurarTiempoSoplado s w = Some w' /\ tx_extends w w') /\
  (forall e T w, 0 <= T < 2147483648 ->
     exists w', esperarEstado e T w = Some w' /\ tx_extends w w') /\
  (forall w, exists w', iniciarPrueba w = Some w' /\ tx_extends w w').
Proof.
  split; [| split; [| split; [| split; [| split; [| split; [| split;
    [| split; [| split; [| split; [| split]]]]]]]]]].
  - intros p Hlen Hp cmd. subst cmd.
    rewrite sum_1_7_frame by (try assumption; unfold is_byte; lia).
    rewrite checksum_mask_eq, checksum_not_eq.
    repeat split.
    + apply neg_as_lnot.
    + rewrite Zplus_mod_idemp_r. replace (suma p + (0 - suma p)) with 0 by lia.
      reflexivity.
  - repeat split; first [ apply frame_ok_cmdEstado | apply frame_ok_cmdLeerResultado
                        | apply frame_ok_cmdUmbral | apply frame_ok_cmd_leerTiempoSoplado ].
  - intros s Hs. split;
      [apply frame_ok_cmd_cambiarEstado | apply frame_ok_cmd_configurarTiempoSoplado];
      exact Hs.
  - intros w. destruct (verificarEstado_total w) as (w' & H & Htx & _).
    exists w'. split; [exact H |]. eapply tx_extends_one; [exact Htx | apply frame_ok_cmdEstado].
  - intros w. destruct (leerResultado_total w) as (w' & H & Htx).
    exists w'. split; [exact H |].
    eapply tx_extends_one; [exact Htx | apply frame_ok_cmdLeerResultado].
  - intros w. destruct (consultarUmbrales_total w) as (w' & H & Htx).
    exists w'. split; [exact H |].
    eapply tx_extends_one; [exact Htx | apply frame_ok_cmdUmbral].
  - intros w. destruct (leerTiempoSoplado_total w) as (w' & H & Htx).
    exists w'. split; [exact H |].
    eapply tx_extends_one; [exact Htx | apply frame_ok_cmd_leerTiempoSoplado].
  - intros w. eapply tx_extends_one; [apply probarComunicacion_tx | apply frame_ok_cmdEstado].
  - intros s w Hs. destruct (cambiarEstado_total s w) as (w' & H & Htx).
    exists w'. split; [exact H |].
    eapply tx_extends_one; [exact Htx | apply frame_ok_cmd_cambiarEstado; exact Hs].
  - intros s w.
    destruct (decide (1 <= s <= 10)) as [Hs | Hs].
    + destruct (configurarTiempoSoplado_total s w Hs) as (w' & H & Htx).
      exists w'. split; [exact H |].
      eapply tx_extends_one; [exact Htx |].
      apply frame_ok_cmd_configurarTiempoSoplado. unfold is_byte. lia.
    + unfold configurarTiempoSoplado.
      replace ((s <? 1) || (s >? 10)) with true.
      * eexists. split; [reflexivity |]. apply tx_extends_same. reflexivity.
      * symmetry. apply orb_true_iff.
        destruct (Z.ltb_spec s 1); [auto |]. destruct (Z.gtb_spec s 10); [auto | lia].
  - intros e T w HT. destruct (esperarEstado_total e T w HT) as (w' & n & H & Htx).
    exists w'. split; [exact H |].
    eapply tx_extends_replicate; [exact Htx | apply frame_ok_cmdEstado].
  - apply iniciarPrueba_total.
Qed.

Lemma outbound_checksum_witness :
  (let p := [0x01; 0x87; 0x32; 0; 0; 0; 0] in
   let cmd := 0xFF :: p ++ [0] in
   checksum_mask (sum_1_7 cmd) = (0 - suma p) mod 256 /\
   checksum_not (sum_1_7 cmd) = (0 - suma p) mod 256 /\
   (0 - suma p) mod 256 = Z.land (Z.lnot (suma p) + 1) 0xFF /\
   (suma p + (0 - suma p) mod 256) mod 256 = 0) /\
  (frame_ok (cmd_cambiarEstado STATUS_PREHEATING) /\
   frame_ok (cmd_configurarTiempoSoplado STATUS_PREHEATING)) /\
  (exists w', cambiarEstado STATUS_PREHEATING (mundo STATUS_IDLE []) = Some w' /\
              tx_extends (mundo STATUS_IDLE []) w') /\
  (exists w', esperarEstado STATUS_IDLE 10000 (mundo STATUS_BLOWING []) = Some w' /\
              tx_extends (mundo STATUS_BLOWING []) w').
Proof.
  destruct outbound_checksum as (H1 & _ & H3 & _ & _ & _ & _ & _ & H9 & _ & H11 & _).
  split; [| split; [| split]].
  - apply (H1 [0x01; 0x87; 0x32; 0; 0; 0; 0]).
    + reflexivity.
    + cada_uno ltac:(unfold is_byte; lia).
  - apply (H3 STATUS_PREHEATING). unfold is_byte, STATUS_PREHEATING. lia.
  - apply (H9 STATUS_PREHEATING). unfold is_byte, STATUS_PREHEATING. lia.
  - apply (H11 STATUS_IDLE 10000). lia.
Defined.

(** ** Claims about the commands *)

(** C8: [configurarTiempoSoplado] tests [1 <= nuevoTiempo <= 10] before it
    builds anything: for every value of its [byte] parameter that is out of
    range (0 and 11..255) it prints the error and returns, with nothing
    written to the sensor, nothing read and no time spent; in range it goes
    on and writes the 9-byte command. *)
Theorem configurarTiempoSoplado_valida :
  (forall (nuevoTiempo : Z) (w : World),
     is_byte nuevoTiempo ->
     nuevoTiempo < 1 \/ 10 < nuevoTiempo ->
     exists w',
       configurarTiempoSoplado nuevoTiempo w = Some w' /\
       tx w' = tx w /\ rx w' = rx w /\ now w' = now w /\
       currentStatus w' = currentStatus w /\
       console w' = console w ++ [Str "Error: Tiempo fuera de rango (1-10s)"; Nl]) /\
  (forall (nuevoTiempo : Z) (w : World),
     1 <= nuevoTiempo <= 10 ->
     exists w',
       configurarTiempoSoplado nuevoTiempo w = Some w' /\
       tx w' = tx w ++ cmd_configurarTiempoSoplado nuevoTiempo).
Proof.
  split.
  - intros n w _ Hn. unfold configurarTiempoSoplado.
    replace ((n <? 1) || (n >? 10)) with true.
    + eexists. split; [reflexivity |]. world_simpl. auto.
    + symmetry. apply orb_true_iff.
      destruct (Z.ltb_spec n 1); [auto |]. destruct (Z.gtb_spec n 10); [auto | lia].
  - apply configurarTiempoSoplado_total.
Qed.

Lemma configurarTiempoSoplado_valida_witness :
  let w := mundo STATUS_IDLE [] in
  (is_byte 11 /\
   exists w',
     configurarTiempoSoplado 11 w = Some w' /\
     tx w' = tx w /\ rx w' = rx w /\ now w' = now w /\
     currentStatus w' = currentStatus w /\
     console w' = console w ++ [Str "Error: Tiempo fuera de rango (1-10s)"; Nl]) /\
  (exists w',
     configurarTiempoSoplado 7 w = Some w' /\
     tx w' = tx w ++ cmd_configurarTiempoSoplado 7).
Proof.
  intros w. split.
  - split; [unfold is_byte; lia |].
    apply (proj1 configurarTiempoSoplado_valida 11 w); [unfold is_byte; lia |].
    right. lia.
  - apply (proj2 configurarTiempoSoplado_valida 7 w). lia.
Defined.

(** C9: for every response that [leerResultado] accepts, the alcohol
    content it reports is the unsigned 16-bit big-endian value of bytes 2 and
    3, [(response[2] << 8) | response[3]], and the alarm line is chosen by
    byte 7; bytes 2,3 = [00 32] and byte 7 = [01] give 50 mg/100ml and
    "Bebido" (drinking). *)
Theorem leerResultado_decodifica :
  (forall (w : World) (response : list Z) (w2 : World),
     leerRespuesta response0 9 (enviarComando cmdLeerResultado 9 w)
       = Some (true, response, w2) ->
     cabecera_ok response 0x86 = true ->
     concentracion response
       = Z.lor (Z.shiftl (response !!! 2%nat) 8) (response !!! 3%nat) /\
     0 <= concentracion response < 65536 /\
     exists w',
       leerResultado w = Some w' /\
       console w' = console w2 ++ resultado_out response) /\
  (forall response : list Z,
     response !!! 2%nat = 0x00 -> response !!! 3%nat = 0x32 ->
     response !!! 7%nat = 0x01 ->
     resultado_out response
       = [Str "Contenido de alcohol: "; Flt 50; Str " mg/100ml"; Nl;
          Str "Estado de alarma: "; Str "Bebido (20-80mg/100ml)"; Nl]).
Proof.
  split.
  - intros w response w2 Hr Hcab.
    pose proof (leerRespuesta_bytes response0 _ _ _ eq_refl Hr) as Hbytes.
    pose proof (lookup_total_byte response 2 Hbytes) as H2.
    pose proof (lookup_total_byte response 3 Hbytes) as H3.
    assert (Hlor : Z.lor (Z.shiftl (response !!! 2%nat) 8) (response !!! 3%nat)
                   = concentracion response).
    { unfold concentracion. apply lor_shiftl_bytes; assumption. }
    split; [symmetry; exact Hlor |].
    split; [unfold concentracion, is_byte in *; lia |].
    unfold leerResultado. rewrite Hr, bind_Some. cbv iota beta. rewrite Hcab.
    rewrite Hlor.
    rewrite to_int_small by (unfold is_int, concentracion, is_byte in *; lia).
    unfold resultado_out, alarma_out.
    casos; eexists; (split; [reflexivity |]); world_simpl;
      rewrite <- ?app_assoc; reflexivity.
  - intros response H2 H3 H7. unfold resultado_out, alarma_out, concentracion.
    rewrite H2, H3, H7. reflexivity.
Qed.

Lemma leerResultado_decodifica_witness :
  let response := [0xFF; 0x86; 0x00; 0x32; 0; 0; 0; 0x01; 0x47] in
  let w := mundo STATUS_READ_RESULT (llegada 100 response) in
  (exists w' w2,
     leerResultado w = Some w' /\
     console w' = console w2 ++ resultado_out response) /\
  resultado_out response
  = [Str "Contenido de alcohol: "; Flt 50; Str " mg/100ml"; Nl;
     Str "Estado de alarma: "; Str "Bebido (20-80mg/100ml)"; Nl].
Proof.
  intros response w. split.
  - assert (E : exists w2,
               leerRespuesta response0 9 (enviarComando cmdLeerResultado 9 w)
               = Some (true, response, w2))
      by (vm_compute; eexists; reflexivity).
    destruct E as [w2 E].
    destruct (proj1 leerResultado_decodifica w response w2 E eq_refl)
      as (_ & _ & w' & H & Hc).
    exists w', w2. split; [exact H | exact Hc].
  - apply (proj2 leerResultado_decodifica response); reflexivity.
Defined.




(** C4, as claimed, fails: the frame built for a blow time of 7 ends in
    [0x6F], not [0x68]. *)
Lemma configurarTiempoSoplado_7_no_0x68 :
  cmd_configurarTiempoSoplado 7 <> [0xFF; 0x01; 0x89; 0x07; 0x00; 0x00; 0x00; 0x00; 0x68] /\
  cmd_configurarTiempoSoplado 7 !!! 8%nat = 0x6F /\
  option_map tx (configurarTiempoSoplado 7 (mundo STATUS_IDLE []))
  = Some [0xFF; 0x01; 0x89; 0x07; 0x00; 0x00; 0x00; 0x00; 0x6F].
Proof.
  split; [| split].
  - vm_compute. discriminate.
  - reflexivity.
  - vm_compute. reflexivity.
Qed.

(** C4, amended: the frame built and written for a blow time of 7 is
    [FF 01 89 07 00 00 00 00 6F], and a response [FF 89 01 00 00 00 00 00 Y]
    is reported as success, whatever [Y] is. *)
Theorem configurarTiempoSoplado_7 :
  cmd_configurarTiempoSoplado 7 = [0xFF; 0x01; 0x89; 0x07; 0x00; 0x00; 0x00; 0x00; 0x6F] /\
  (forall w : World,
     exists w',
       configurarTiempoSoplado 7 w = Some w' /\
       tx w' = tx w ++ [0xFF; 0x01; 0x89; 0x07; 0x00; 0x00; 0x00; 0x00; 0x6F]) /\
  (forall (w : World) (Y : Z) (w2 : World),
     leerRespuesta response0 9 (configurarTiempoSoplado_envio 7 w)
       = Some (true, [0xFF; 0x89; 0x01; 0; 0; 0; 0; 0; Y], w2) ->
     configurarTiempoSoplado 7 w
     = Some (Serial_println (Str "¡Configuración de tiempo de soplado exitosa!") w2)).
Proof.
  split; [reflexivity | split].
  - intros w. apply (configurarTiempoSoplado_total 7 w). lia.
  - intros w Y w2 Hr. unfold configurarTiempoSoplado.
    change ((7 <? 1) || (7 >? 10)) with false. cbv iota.
    rewrite Hr, bind_Some. reflexivity.
Qed.

Lemma configurarTiempoSoplado_7_witness :
  let w := mundo STATUS_IDLE (llegada 100 [0xFF; 0x89; 0x01; 0; 0; 0; 0; 0; 0x76]) in
  exists w2,
    configurarTiempoSoplado 7 w
    = Some (Serial_println (Str "¡Configuración de tiempo de soplado exitosa!") w2).
Proof.
  intros w.
  assert (E : exists w2,
             leerRespuesta response0 9 (configurarTiempoSoplado_envio 7 w)
             = Some (true, [0xFF; 0x89; 0x01; 0; 0; 0; 0; 0; 0x76], w2))
    by (vm_compute; eexists; reflexivity).
  destruct E as [w2 E]. exists w2.
  exact (proj2 (proj2 configurarTiempoSoplado_7) w 0x76 w2 E).
Defined.





(** * Further properties of the code *)

(** ** The receive queue *)

Lemma listo_ready w ta b q : rx w = (ta, b) :: q -> ta <= now w -> listo w = Some (b, q).
Proof.
  intros Hrx Hta. unfold listo. rewrite Hrx.
  destruct (Z.leb_spec ta (now w)); [reflexivity | lia].
Qed.

Lemma vaciar_app (t : Z) (stale q : list (Z * Z)) :
  llegan_antes t stale -> silencio_hasta (t + 1) q -> vaciar t (stale ++ q) = q.
Proof.
  intros Hs Hq. induction Hs as [|[ta b] stale Hta _ IH]; simpl.
  - destruct q as [|[tq bq] q]; [reflexivity |]. simpl in Hq. simpl.
    destruct (Z.leb_spec tq t); [lia | reflexivity].
  - simpl in Hta. destruct (Z.leb_spec ta t); [exact IH | lia].
Qed.

Lemma arrived_app (t : Z) (a q : list (Z * Z)) :
  llegan_antes t a -> silencio_hasta (t + 1) q -> arrived t (a ++ q) = map snd a.
Proof.
  intros Ha Hq. induction Ha as [|[ta b] a Hta _ IH]; simpl.
  - destruct q as [|[tq bq] q]; [reflexivity |]. simpl in Hq. simpl.
    destruct (Z.leb_spec tq t); [lia | reflexivity].
  - simpl in Hta. destruct (Z.leb_spec ta t); [rewrite IH; reflexivity | lia].
Qed.

Lemma vaciar_suffix (t : Z) (q : list (Z * Z)) :
  exists p, q = p ++ vaciar t q /\ llegan_antes t p.
Proof.
  induction q as [|[ta b] q IH].
  - exists []. split; [reflexivity | constructor].
  - simpl. destruct (Z.leb_spec ta t) as [Hle | Hgt].
    + destruct IH as (p & Hp & Hall). exists ((ta, b) :: p). split.
      * simpl. rewrite <- Hp. reflexivity.
      * constructor; [exact Hle | exact Hall].
    + exists []. split; [reflexivity | constructor].
Qed.

Lemma sin_marca_suffix (p q : list (Z * Z)) : sin_marca (p ++ q) -> sin_marca q.
Proof. intros H. apply Forall_app in H. tauto. Qed.

Lemma vaciar_sin_marca (t : Z) (q : list (Z * Z)) :
  sin_marca q -> sin_marca (vaciar t q).
Proof.
  intros H. destruct (vaciar_suffix t q) as (p & Hp & _).
  rewrite Hp in H. eapply sin_marca_suffix. exact H.
Qed.

Lemma silencio_llegan_despues (t : Z) (q rest : list (Z * Z)) :
  q <> [] -> llegan_despues t q -> silencio_hasta (t + 1) (q ++ rest).
Proof.
  intros Hne Hq. destruct q as [|[ta b] q]; [contradiction |].
  inversion Hq as [|? ? Hta _]. simpl in *. lia.
Qed.

(** ** The frame reader: time, effects, latency *)

(** X1: a call of [leerRespuesta] on a 9-byte buffer always returns, at most
    3000 ms after it began and exactly then when it returns [false]; it
    takes a prefix of the receive queue and changes nothing else: nothing
    is written to the sensor and the globals keep their values. *)
Theorem leerRespuesta_acotada (buf : list Z) (w : World) :
  length buf = 9%nat ->
  exists ok buf' w' consumed,
    leerRespuesta buf 9 w = Some (ok, buf', w') /\
    rx w = consumed ++ rx w' /\
    tx w' = tx w /\ currentStatus w' = currentStatus w /\
    resultAvailable w' = resultAvailable w /\
    length buf' = 9%nat /\
    now w <= now w' <= now w + 3000 /\
    (ok = false -> now w' = now w + 3000) /\
    (ok = true -> now w' < now w + 3000).
Proof.
  intros Hbuf.
  destruct (leerRespuesta_spec buf w Hbuf) as ([[ok buf'] w'] & g & f & Hr & Hs).
  exists ok, buf', w', (g ++ f). unfold lectura_de in Hs.
  destruct Hs as (Hrx & _ & _ & Hb & Htx & Hcs & Hra & Hok).
  split; [exact Hr |]. split; [rewrite <- app_assoc; exact Hrx |].
  split; [exact Htx |]. split; [exact Hcs |]. split; [exact Hra |].
  assert (Hlf : (length f <= 9)%nat) by (destruct ok; lia).
  split; [subst buf'; rewrite length_app, bytes_of_length, length_drop; lia |].
  destruct ok.
  - destruct Hok as (_ & Hnow & _). repeat split; try lia; congruence.
  - destruct Hok as (_ & Hnow & _). repeat split; try lia; congruence.
Qed.

Lemma leerRespuesta_acotada_witness :
  exists ok buf' w' consumed,
    leerRespuesta response0 9 (mundo STATUS_IDLE (llegada 100 [0x12; 0xFF; 0x85]))
      = Some (ok, buf', w') /\
    rx (mundo STATUS_IDLE (llegada 100 [0x12; 0xFF; 0x85])) = consumed ++ rx w' /\
    tx w' = tx (mundo STATUS_IDLE (llegada 100 [0x12; 0xFF; 0x85])) /\
    currentStatus w' = currentStatus (mundo STATUS_IDLE (llegada 100 [0x12; 0xFF; 0x85])) /\
    resultAvailable w'
      = resultAvailable (mundo STATUS_IDLE (llegada 100 [0x12; 0xFF; 0x85])) /\
    length buf' = 9%nat /\
    now (mundo STATUS_IDLE (llegada 100 [0x12; 0xFF; 0x85])) <= now w'
      <= now (mundo STATUS_IDLE (llegada 100 [0x12; 0xFF; 0x85])) + 3000 /\
    (ok = false ->
     now w' = now (mundo STATUS_IDLE (llegada 100 [0x12; 0xFF; 0x85])) + 3000) /\
    (ok = true ->
     now w' < now (mundo STATUS_IDLE (llegada 100 [0x12; 0xFF; 0x85])) + 3000).
Proof.
  apply (leerRespuesta_acotada response0
           (mundo STATUS_IDLE (llegada 100 [0x12; 0xFF; 0x85]))).
  reflexivity.
Defined.

(** With the whole frame in the receive buffer when the call begins, the
    reader never waits for a byte: it pauses 10 ms after each of the bytes
    2 to 8. *)
Lemma leerRespuesta_70ms (buf : list Z) (w : World) (g f rest : list (Z * Z)) :
  rx w = g ++ f ++ rest -> sin_marca g -> con_marca f -> length f = 9%nat ->
  llegan_antes (now w) (g ++ f) ->
  exists r, leerRespuesta buf 9 w = Some r /\ now (snd r) = now w + 70.
Proof.
  intros Hrx Hg Hf Hn Harr.
  apply Forall_app in Harr as [Harrg Harrf].
  set (P := fun (st : lectura) (w1 : World) =>
    (startByteFound st = false /\ now w1 = now w /\
     exists g2, rx w1 = g2 ++ f ++ rest /\ sin_marca g2 /\ llegan_antes (now w) g2) \/
    (startByteFound st = true /\
     exists m, (1 <= m < 9)%nat /\ bytesRead st = Z.of_nat m /\
               rx w1 = drop m f ++ rest /\
               now w1 = now w + 10 * (Z.of_nat m - 1))).
  set (Q := fun r : bool * list Z * World => now (snd r) = now w + 70).
  apply (leerRespuesta_inv P Q).
  - left. split; [reflexivity |]. split; [reflexivity |]. exists g. auto.
  - intros st w1 HP Hlt. rewrite leerRespuesta_body_eq.
    destruct HP as [(Hs & Hnow & g2 & Hrx1 & Hg2 & Harr2)
                   | (Hs & m & Hm & Hbr & Hrx1 & Hnow)].
    + destruct g2 as [|[t2 b2] g2].
      * destruct f as [|[tf bf] f']; [destruct Hf |].
        simpl in Hrx1. inversion Harrf as [|? ? Htf _]. simpl in Htf.
        rewrite (listo_ready w1 tf bf (f' ++ rest)) by (try assumption; lia).
        cbv zeta. rewrite Hs. simpl in Hf. rewrite Hf. simpl.
        right. split; [reflexivity |]. exists 1%nat. simpl in Hn.
        world_simpl. repeat split; try lia.
      * simpl in Hrx1. inversion Harr2 as [|? ? Ht2 Harr2']. simpl in Ht2.
        inversion Hg2 as [|? ? Hb2 Hg2']. simpl in Hb2.
        rewrite (listo_ready w1 t2 b2 (g2 ++ f ++ rest)) by (try assumption; lia).
        cbv zeta. rewrite Hs.
        destruct (Z.eqb_spec (to_byte b2) 255) as [? | _]; [contradiction |].
        left. world_simpl. split; [assumption |]. split; [assumption |].
        exists g2. auto.
    + destruct (lookup_lt_is_Some_2 f m) as [[tm bm] Hlk]; [lia |].
      rewrite (drop_S _ _ _ Hlk) in Hrx1. simpl in Hrx1.
      assert (Htm : tm <= now w).
      { rewrite Forall_forall in Harrf.
        apply (Harrf (tm, bm)). apply list_elem_of_lookup. eauto. }
      rewrite (listo_ready w1 tm bm (drop (S m) f ++ rest)) by (try assumption; lia).
      cbv zeta. rewrite Hs, Hbr, to_int_small by (unfold is_int; lia).
      destruct (Z.geb_spec (Z.of_nat m + 1) 9) as [Hge | Hnge].
      * unfold Q. cbn [snd]. world_simpl. lia.
      * right. split; [reflexivity |]. exists (S m). world_simpl.
        cbn [bytesRead]. repeat split; try lia.
  - intros st w1 HP Hge. exfalso.
    destruct HP as [(Hs & Hnow & _) | (Hs & m & Hm & _ & _ & Hnow)];
      unfold millis in Hge; rewrite to_ulong_elapsed in Hge by lia; lia.
Qed.

(** A reply at the head of the queue is read whole. *)
Lemma leerRespuesta_responde (w0 : World) (reply rest : list (Z * Z)) :
  rx w0 = reply ++ rest -> con_marca reply -> length reply = 9%nat ->
  llegan_antes (now w0 + 2920) reply ->
  exists w2,
    leerRespuesta response0 9 w0 = Some (true, bytes_of reply, w2) /\
    rx w2 = rest /\ tx w2 = tx w0 /\ currentStatus w2 = currentStatus w0 /\
    resultAvailable w2 = resultAvailable w0 /\
    console w2 = console w0 ++ out_leidos (bytes_of reply) 9 9 /\
    now w0 <= now w2 < now w0 + 3000 /\
    (llegan_antes (now w0) reply -> now w2 = now w0 + 70).
Proof.
  intros Hrx Hf Hlen Harr.
  destruct (leerRespuesta_llega response0 w0 [] reply rest 2920)
    as (w2 & Hr & Hrest & Hs); try assumption; try lia; try reflexivity.
  { constructor. }
  rewrite Hlen in Hr, Hs. rewrite drop_ge, app_nil_r in Hr, Hs by (simpl; lia).
  change (9 =? 9)%nat with true in Hr, Hs.
  exists w2. unfold lectura_de in Hs.
  destruct Hs as (_ & _ & _ & _ & Htx & Hcs & Hra & _ & Hnow & Hco).
  repeat (split; [assumption |]).
  intros Hprompt.
  destruct (leerRespuesta_70ms response0 w0 [] reply rest) as (r & Hr' & Hn);
    try assumption.
  { constructor. }
  rewrite Hr in Hr'. injection Hr' as <-. exact Hn.
Qed.

Lemma con_marca_no_vacia (f : list (Z * Z)) : con_marca f -> f <> [].
Proof. destruct f; [intros [] | discriminate]. Qed.

(** What [enviarComando] leaves in the receive queue. *)
Lemma enviarComando_rx (cmd : list Z) (len : Z) (w : World) :
  rx (enviarComando cmd len w) = vaciar (now w) (rx w).
Proof. reflexivity. Qed.

Lemma enviarComando_descarta (cmd : list Z) (w : World) (stale reply rest : list (Z * Z)) :
  rx w = stale ++ reply ++ rest -> llegan_antes (now w) stale ->
  reply <> [] -> llegan_despues (now w) reply ->
  rx (enviarComando cmd 9 w) = reply ++ rest.
Proof.
  intros Hrx Hs Hne Hd. rewrite enviarComando_rx, Hrx.
  apply vaciar_app; [exact Hs |]. apply silencio_llegan_despues; assumption.
Qed.

(** ** The exchange of [verificarEstado] *)

(** X2: [verificarEstado] throws away whatever is in the receive buffer when
    it is called (whole frames included), sends the state query, and reads
    the nine bytes that come after: it takes byte 2 of them as the new
    [currentStatus] when byte 1 is [0x85], and leaves the bytes that follow
    in the queue.  With the reply complete in the 500 ms pause after the
    transmission, the call takes 570 ms. *)
Theorem verificarEstado_intercambio (w : World) (stale reply rest : list (Z * Z)) :
  rx w = stale ++ reply ++ rest ->
  llegan_antes (now w) stale ->
  con_marca reply -> length reply = 9%nat ->
  llegan_despues (now w) reply -> llegan_antes (now w + 3420) reply ->
  exists w',
    verificarEstado w = Some w' /\
    rx w' = rest /\ tx w' = tx w ++ cmdEstado /\
    currentStatus w'
    = (if cabecera_ok (bytes_of reply) 0x85 then bytes_of reply !!! 2%nat
       else currentStatus w) /\
    (llegan_antes (now w + 500) reply -> now w' = now w + 570).
Proof.
  intros Hrx Hstale Hf Hlen Hafter Hbefore.
  pose proof (enviarComando_descarta cmdEstado w stale reply rest Hrx Hstale
                (con_marca_no_vacia _ Hf) Hafter) as Hrx0.
  destruct (enviarComando_facts cmdEstado w eq_refl) as (Htx0 & Hnow0 & Hcs0 & _).
  destruct (leerRespuesta_responde (enviarComando cmdEstado 9 w) reply rest)
    as (w2 & Hr & Hrest & Htx & Hcs & _ & _ & _ & Hprompt); try assumption.
  { rewrite Hnow0. replace (now w + 500 + 2920) with (now w + 3420) by lia.
    exact Hbefore. }
  rewrite Hnow0 in Hprompt.
  unfold verificarEstado. rewrite Hr, bind_Some. cbv iota beta.
  rewrite <- Htx0, <- Htx, <- Hrest.
  destruct (cabecera_ok (bytes_of reply) 133).
  - casos; eexists; (split; [reflexivity |]); world_simpl;
      (repeat split; try reflexivity); intros Hp; rewrite (Hprompt Hp); lia.
  - eexists. split; [reflexivity |]. repeat split; try congruence.
    intros Hp; rewrite (Hprompt Hp); lia.
Qed.

Lemma verificarEstado_intercambio_witness :
  let vieja := llegada (-50) [0xFF; 0x85; 0x31; 0; 0; 0; 0; 0; 0x4A] in
  let nueva := llegada 20 [0xFF; 0x85; 0x36; 0; 0; 0; 0; 0; 0x45] in
  let w := mundo STATUS_IDLE (vieja ++ nueva ++ []) in
  exists w',
    verificarEstado w = Some w' /\
    rx w' = [] /\ tx w' = tx w ++ cmdEstado /\
    currentStatus w'
    = (if cabecera_ok (bytes_of nueva) 0x85 then bytes_of nueva !!! 2%nat
       else currentStatus w) /\
    (llegan_antes (now w + 500) nueva -> now w' = now w + 570).
Proof.
  intros vieja nueva w.
  apply (verificarEstado_intercambio w vieja nueva []).
  - reflexivity.
  - cada_uno ltac:(simpl; lia).
  - reflexivity.
  - reflexivity.
  - unfold llegan_despues. cada_uno ltac:(simpl; lia).
  - cada_uno ltac:(simpl; lia).
Defined.

(** ** A sensor that sends no start marker *)

Lemma leerRespuesta_mudo (buf : list Z) (w : World) :
  length buf = 9%nat -> sin_marca (rx w) ->
  exists w',
    leerRespuesta buf 9 w = Some (false, buf, w') /\
    now w' = now w + 3000 /\ sin_marca (rx w') /\
    tx w' = tx w /\ currentStatus w' = currentStatus w /\
    resultAvailable w' = resultAvailable w /\
    console w' = console w ++ out_timeout_sin_datos.
Proof.
  intros Hbuf Hsin.
  destruct (leerRespuesta_spec buf w Hbuf) as ([[ok buf'] w'] & g & f & Hr & Hs).
  unfold lectura_de in Hs.
  destruct Hs as (Hrx & Hg & Hf & Hb & Htx & Hcs & Hra & Hok).
  destruct Hf as [-> | Hf].
  - simpl in Hb. subst buf'. destruct ok; [destruct Hok; discriminate |].
    destruct Hok as (_ & Hnow & Hco).
    exists w'. repeat (split; [assumption |]). split; [| auto].
    rewrite Hrx in Hsin. simpl in Hsin. eapply sin_marca_suffix. exact Hsin.
  - exfalso. rewrite Hrx in Hsin. eapply sin_marca_no_frame; eassumption.
Qed.

Lemma verificarEstado_sin_marca (w : World) :
  sin_marca (rx w) ->
  exists w',
    verificarEstado w = Some w' /\
    now w' = now w + 3500 /\ tx w' = tx w ++ cmdEstado /\
    currentStatus w' = currentStatus w /\
    resultAvailable w' = resultAvailable w /\
    sin_marca (rx w') /\
    console w' = console w ++ out_timeout_sin_datos
                   ++ [Str "Error al leer el estado"; Nl].
Proof.
  intros Hsin.
  destruct (enviarComando_facts cmdEstado w eq_refl) as (Htx0 & Hnow0 & Hcs0 & Hco0).
  destruct (leerRespuesta_mudo response0 (enviarComando cmdEstado 9 w) eq_refl)
    as (w2 & Hr & Hnow & Hsin2 & Htx & Hcs & Hra & Hco).
  { rewrite enviarComando_rx. apply vaciar_sin_marca. exact Hsin. }
  unfold verificarEstado. rewrite Hr, bind_Some. cbv iota beta.
  eexists. split; [reflexivity |]. world_simpl.
  rewrite Hnow, Hnow0, Htx, Htx0, Hcs, Hcs0, Hra, Hco, Hco0, <- app_assoc.
  repeat split; try reflexivity; try assumption. lia.
Qed.


(** X3: when no start marker is among the bytes that reach the receive
    buffer ([rx] holds none at all: a silent sensor, or noise without
    [0xFF]), [verificarEstado] sends its query, gives up 3500 ms after the
    call, prints the time-out and "Error al leer el estado", and leaves
    [currentStatus] and [resultAvailable] as they were. *)
Theorem verificarEstado_mudo (w : World) :
  sin_marca (rx w) ->
  exists w',
    verificarEstado w = Some w' /\
    now w' = now w + 3500 /\ tx w' = tx w ++ cmdEstado /\
    currentStatus w' = currentStatus w /\
    resultAvailable w' = resultAvailable w /\
    sin_marca (rx w') /\
    console w' = console w ++ out_timeout_sin_datos
                   ++ [Str "Error al leer el estado"; Nl].
Proof. exact (verificarEstado_sin_marca w). Qed.

Lemma verificarEstado_mudo_witness :
  let w := mundo STATUS_BLOWING (llegada 100 [0x12; 0x34]) in
  exists w',
    verificarEstado w = Some w' /\
    now w' = now w + 3500 /\ tx w' = tx w ++ cmdEstado /\
    currentStatus w' = currentStatus w /\
    resultAvailable w' = resultAvailable w /\
    sin_marca (rx w') /\
    console w' = console w ++ out_timeout_sin_datos
                   ++ [Str "Error al leer el estado"; Nl].
Proof.
  intros w. apply (verificarEstado_mudo w).
  cada_uno ltac:(vm_compute; congruence).
Defined.

Lemma cambiarEstado_envio_rx (s : Z) (w : World) :
  rx (cambiarEstado_envio s w) = vaciar (now w) (rx w) /\
  resultAvailable (cambiarEstado_envio s w) = resultAvailable w /\
  console (cambiarEstado_envio s w)
  = console w ++ [Str "Intentando cambiar estado a 0x"; Hex s; Nl]
      ++ [Str "Comando enviado: "] ++ dump (cmd_cambiarEstado s) 0 9 ++ [Nl].
Proof.
  unfold cambiarEstado_envio. rewrite imprimir_cmd_eq. world_simpl.
  rewrite <- !app_assoc. auto.
Qed.

Lemma cambiarEstado_mudo (s : Z) (w : World) :
  sin_marca (rx w) ->
  exists w',
    cambiarEstado s w = Some w' /\
    now w' = now w + 3800 /\ tx w' = tx w ++ cmd_cambiarEstado s /\
    currentStatus w' = currentStatus w /\
    resultAvailable w' = resultAvailable w /\
    sin_marca (rx w') /\
    console w'
    = console w ++ ([Str "Intentando cambiar estado a 0x"; Hex s; Nl]
                    ++ [Str "Comando enviado: "] ++ dump (cmd_cambiarEstado s) 0 9 ++ [Nl])
        ++ out_timeout_sin_datos ++ [Str "Sin respuesta al cambiar estado"; Nl].
Proof.
  intros Hsin.
  destruct (cambiarEstado_envio_facts s w) as (Htx0 & Hnow0 & Hcs0).
  destruct (cambiarEstado_envio_rx s w) as (Hrx0 & Hra0 & Hco0).
  destruct (leerRespuesta_mudo response0 (cambiarEstado_envio s w) eq_refl)
    as (w2 & Hr & Hnow & Hsin2 & Htx & Hcs & Hra & Hco).
  { rewrite Hrx0. apply vaciar_sin_marca. exact Hsin. }
  unfold cambiarEstado. rewrite Hr, bind_Some. cbv iota beta.
  eexists. split; [reflexivity |]. world_simpl.
  rewrite Hnow, Hnow0, Htx, Htx0, Hcs, Hcs0, Hra, Hra0, Hco, Hco0.
  repeat split; try reflexivity; try assumption; try lia.
  rewrite <- !app_assoc. reflexivity.
Qed.

(** ** [esperarEstado] *)

Lemma to_ulong_small (z : Z) : 0 <= z < 4294967296 -> to_ulong z = z.
Proof. intros H. unfold to_ulong. apply Z.mod_small. exact H. Qed.

Lemma esperarEstado_loop_S (fuel : nat) (t0 e T : Z) (w : World) :
  esperarEstado_loop (S fuel) t0 e T w
  = if to_ulong (millis w - t0) <? to_ulong T then
      w1 ← verificarEstado w;
      if currentStatus w1 =? e then Some w1
      else esperarEstado_loop fuel t0 e T (delay 500 w1)
    else Some (Serial_println (Str "Timeout esperando estado deseado.") w).
Proof. reflexivity. Qed.

Lemma esperarEstado_loop_resultado (t0 e T : Z) :
  0 <= T < 2147483648 ->
  forall (fuel : nat) (w : World),
    0 <= now w - t0 < T + 4000 ->
    (1 <= fuel)%nat ->
    T - (now w - t0) <= 1000 * (Z.of_nat fuel - 1) ->
    exists w' n,
      esperarEstado_loop fuel (to_ulong t0) e T w = Some w' /\
      tx w' = tx w ++ concat (replicate n cmdEstado) /\
      (n = 0%nat \/ now w - t0 + 1000 * (Z.of_nat n - 1) < T) /\
      now w <= now w' <= now w + 4000 * Z.of_nat n /\ now w' - t0 < T + 4000 /\
      (((1 <= n)%nat /\ currentStatus w' = e) \/
       (T <= now w' - t0 /\
        exists c, console w' = c ++ [Str "Timeout esperando estado deseado."; Nl])).
Proof.
  intros HT. induction fuel as [|fuel IH]; intros w He Hf Hm; [lia |].
  rewrite esperarEstado_loop_S. unfold millis.
  rewrite to_ulong_elapsed, (to_ulong_small T) by lia.
  destruct (Z.ltb_spec (now w - t0) T) as [Hlt | Hge].
  - destruct (verificarEstado_total w) as (w1 & H1 & Htx1 & Hnow1).
    rewrite H1, bind_Some.
    destruct (Z.eqb_spec (currentStatus w1) e) as [Heq | Hne].
    + exists w1, 1%nat. split; [reflexivity |].
      cbn [replicate concat]. rewrite app_nil_r.
      repeat split; try assumption; try lia.
    + destruct (IH (delay 500 w1)) as (w' & n & Hr & Htx' & Hn & Hnow' & Hb & Hres);
        world_simpl; try lia.
      exists w', (S n). split; [exact Hr |].
      split; [rewrite Htx', Htx1; cbn [replicate concat]; rewrite <- app_assoc;
              reflexivity |].
      split; [right; lia |]. split; [lia |]. split; [lia |].
      destruct Hres as [(Hn1 & Hcs) | Hto]; [left; split; [lia | exact Hcs] | right; exact Hto].
  - exists (Serial_println (Str "Timeout esperando estado deseado.") w), 0%nat.
    split; [reflexivity |]. cbn [replicate concat]. rewrite app_nil_r.
    world_simpl. repeat split; try lia; auto.
    right. split; [lia |]. eexists. reflexivity.
Qed.

Lemma esperarEstado_resultado (e T : Z) (w : World) :
  0 <= T < 2147483648 ->
  exists w' n,
    esperarEstado e T w = Some w' /\
    tx w' = tx w ++ concat (replicate n cmdEstado) /\
    (n = 0%nat \/ 1000 * (Z.of_nat n - 1) < T) /\
    now w <= now w' < now w + T + 4000 /\
    now w' <= now w + 4000 * Z.of_nat n /\
    (((1 <= n)%nat /\ currentStatus w' = e) \/
     (T <= now w' - now w /\
      exists c, console w' = c ++ [Str "Timeout esperando estado deseado."; Nl])).
Proof.
  intros HT. unfold esperarEstado, millis.
  destruct (esperarEstado_loop_resultado (now w) e T HT
              (Z.to_nat (to_ulong T / 1000) + 2) w)
    as (w' & n & Hr & Htx & Hn & Hnow & Hb & Hres); try lia.
  { rewrite (to_ulong_small T) by lia.
    rewrite Nat2Z.inj_add, Z2Nat.id by (apply Z.div_pos; lia).
    Z.div_mod_to_equations. lia. }
  exists w', n. split; [exact Hr |]. split; [exact Htx |].
  split; [destruct Hn; [left; assumption | right; lia] |].
  split; [lia |]. split; [lia |]. exact Hres.
Qed.


(** X4: for a timeout of [0 <= timeoutMs < 2^31], [esperarEstado] always
    returns, less than [timeoutMs + 4000] ms after the call; it has then
    sent [n] state queries and nothing else, with [1000 * (n - 1) <
    timeoutMs], and has taken no more than 4000 ms for each; and either it made at least one query and [currentStatus] is
    the state waited for, or the timeout has passed and the last thing
    printed is "Timeout esperando estado deseado.".  With a timeout of 0 it
    sends nothing. *)
Theorem esperarEstado_acotada (e T : Z) (w : World) :
  0 <= T < 2147483648 ->
  exists w' n,
    esperarEstado e T w = Some w' /\
    tx w' = tx w ++ concat (replicate n cmdEstado) /\
    (n = 0%nat \/ 1000 * (Z.of_nat n - 1) < T) /\
    now w <= now w' < now w + T + 4000 /\
    now w' <= now w + 4000 * Z.of_nat n /\
    (((1 <= n)%nat /\ currentStatus w' = e) \/
     (T <= now w' - now w /\
      exists c, console w' = c ++ [Str "Timeout esperando estado deseado."; Nl])).
Proof. exact (esperarEstado_resultado e T w). Qed.

Lemma esperarEstado_acotada_witness :
  let w := mundo STATUS_BLOWING [] in
  exists w' n,
    esperarEstado STATUS_IDLE 10000 w = Some w' /\
    tx w' = tx w ++ concat (replicate n cmdEstado) /\
    (n = 0%nat \/ 1000 * (Z.of_nat n - 1) < 10000) /\
    now w <= now w' < now w + 10000 + 4000 /\
    now w' <= now w + 4000 * Z.of_nat n /\
    (((1 <= n)%nat /\ currentStatus w' = STATUS_IDLE) \/
     (10000 <= now w' - now w /\
      exists c, console w' = c ++ [Str "Timeout esperando estado deseado."; Nl])).
Proof.
  intros w. apply (esperarEstado_acotada STATUS_IDLE 10000 w). lia.
Defined.

Lemma esperarEstado_loop_mudo (t0 e T : Z) :
  0 <= T < 2147483648 ->
  forall (fuel : nat) (w : World),
    sin_marca (rx w) -> currentStatus w <> e ->
    0 <= now w - t0 < T + 4000 ->
    (1 <= fuel)%nat ->
    T - (now w - t0) <= 1000 * (Z.of_nat fuel - 1) ->
    exists w' n,
      esperarEstado_loop fuel (to_ulong t0) e T w = Some w' /\
      tx w' = tx w ++ concat (replicate n cmdEstado) /\
      now w' = now w + 4000 * Z.of_nat n /\
      T <= now w' - t0 /\
      (n = 0%nat \/ now w - t0 + 4000 * (Z.of_nat n - 1) < T) /\
      currentStatus w' = currentStatus w /\
      resultAvailable w' = resultAvailable w /\
      sin_marca (rx w') /\
      exists c, console w' = c ++ [Str "Timeout esperando estado deseado."; Nl].
Proof.
  intros HT. induction fuel as [|fuel IH]; intros w Hsin Hcs He Hf Hm; [lia |].
  rewrite esperarEstado_loop_S. unfold millis.
  rewrite to_ulong_elapsed, (to_ulong_small T) by lia.
  destruct (Z.ltb_spec (now w - t0) T) as [Hlt | Hge].
  - destruct (verificarEstado_sin_marca w Hsin)
      as (w1 & H1 & Hnow1 & Htx1 & Hcs1 & Hra1 & Hsin1 & _).
    rewrite H1, bind_Some.
    destruct (Z.eqb_spec (currentStatus w1) e) as [Heq | Hne]; [congruence |].
    destruct (IH (delay 500 w1))
      as (w' & n & Hr & Htx' & Hnow' & Hto & Hn & Hcs' & Hra' & Hsin' & Hc);
      world_simpl; try assumption; try lia.
    exists w', (S n). split; [exact Hr |].
    split; [rewrite Htx', Htx1; cbn [replicate concat]; rewrite <- app_assoc;
            reflexivity |].
    repeat split; try assumption; try lia; try congruence.
  - exists (Serial_println (Str "Timeout esperando estado deseado.") w), 0%nat.
    split; [reflexivity |]. cbn [replicate concat]. rewrite app_nil_r.
    world_simpl. repeat split; try lia; auto.
    eexists. reflexivity.
Qed.

Lemma esperarEstado_sin_marca (e T : Z) (w : World) :
  0 < T < 2147483648 -> sin_marca (rx w) ->
  (currentStatus w = e ->
   exists w',
     esperarEstado e T w = Some w' /\
     now w' = now w + 3500 /\ tx w' = tx w ++ cmdEstado /\
     currentStatus w' = e /\ sin_marca (rx w')) /\
  (currentStatus w <> e ->
   exists w' n,
     esperarEstado e T w = Some w' /\
     tx w' = tx w ++ concat (replicate n cmdEstado) /\
     now w' = now w + 4000 * Z.of_nat n /\
     T <= 4000 * Z.of_nat n < T + 4000 /\
     currentStatus w' = currentStatus w /\ sin_marca (rx w') /\
     exists c, console w' = c ++ [Str "Timeout esperando estado deseado."; Nl]).
Proof.
  intros HT Hsin. split.
  - intros Hcs. unfold esperarEstado.
    replace (Z.to_nat (to_ulong T / 1000) + 2)%nat
      with (S (Z.to_nat (to_ulong T / 1000) + 1)) by lia.
    rewrite esperarEstado_loop_S. unfold millis.
    rewrite to_ulong_elapsed, (to_ulong_small T) by lia.
    replace (now w - now w) with 0 by lia.
    destruct (Z.ltb_spec 0 T) as [_ | ?]; [| lia].
    destruct (verificarEstado_sin_marca w Hsin)
      as (w1 & H1 & Hnow1 & Htx1 & Hcs1 & _ & Hsin1 & _).
    rewrite H1, bind_Some.
    destruct (Z.eqb_spec (currentStatus w1) e) as [_ | Hne]; [| congruence].
    exists w1. repeat split; try assumption. congruence.
  - intros Hcs. unfold esperarEstado, millis.
    destruct (esperarEstado_loop_mudo (now w) e T ltac:(lia)
                (Z.to_nat (to_ulong T / 1000) + 2) w)
      as (w' & n & Hr & Htx & Hnow & Hto & Hn & Hcs' & _ & Hsin' & Hc);
      try assumption; try lia.
    { rewrite (to_ulong_small T) by lia.
      rewrite Nat2Z.inj_add, Z2Nat.id by (apply Z.div_pos; lia).
      Z.div_mod_to_equations. lia. }
    exists w', n. repeat split; try assumption; try lia.
Qed.


(** X5: with a sensor that sends no start marker, [esperarEstado] goes by
    the mirrored state alone.  If [currentStatus] is already the state
    waited for, the first query times out and the function returns as if
    the state had been confirmed, 3500 ms after the call.  If it is not,
    the function sends a query every 4000 ms until the timeout has passed
    and prints "Timeout esperando estado deseado."; [currentStatus] is
    unchanged.  Either way the queue is left without a start marker. *)
Theorem esperarEstado_mudo (e T : Z) (w : World) :
  0 < T < 2147483648 -> sin_marca (rx w) ->
  (currentStatus w = e ->
   exists w',
     esperarEstado e T w = Some w' /\
     now w' = now w + 3500 /\ tx w' = tx w ++ cmdEstado /\
     currentStatus w' = e /\ sin_marca (rx w')) /\
  (currentStatus w <> e ->
   exists w' n,
     esperarEstado e T w = Some w' /\
     tx w' = tx w ++ concat (replicate n cmdEstado) /\
     now w' = now w + 4000 * Z.of_nat n /\
     T <= 4000 * Z.of_nat n < T + 4000 /\
     currentStatus w' = currentStatus w /\ sin_marca (rx w') /\
     exists c, console w' = c ++ [Str "Timeout esperando estado deseado."; Nl]).
Proof. exact (esperarEstado_sin_marca e T w). Qed.

Lemma esperarEstado_mudo_witness :
  (exists w',
     esperarEstado STATUS_IDLE 10000 (mundo STATUS_IDLE []) = Some w' /\
     now w' = now (mundo STATUS_IDLE []) + 3500 /\
     tx w' = tx (mundo STATUS_IDLE []) ++ cmdEstado /\
     currentStatus w' = STATUS_IDLE /\ sin_marca (rx w')) /\
  (exists w' n,
     esperarEstado STATUS_IDLE 10000 (mundo STATUS_READ_RESULT []) = Some w' /\
     tx w' = tx (mundo STATUS_READ_RESULT []) ++ concat (replicate n cmdEstado) /\
     now w' = now (mundo STATUS_READ_RESULT []) + 4000 * Z.of_nat n /\
     10000 <= 4000 * Z.of_nat n < 10000 + 4000 /\
     currentStatus w' = currentStatus (mundo STATUS_READ_RESULT []) /\
     sin_marca (rx w') /\
     exists c, console w' = c ++ [Str "Timeout esperando estado deseado."; Nl]).
Proof.
  split.
  - apply (proj1 (esperarEstado_mudo STATUS_IDLE 10000 (mundo STATUS_IDLE [])
                    ltac:(lia) (List.Forall_nil _))).
    reflexivity.
  - apply (proj2 (esperarEstado_mudo STATUS_IDLE 10000 (mundo STATUS_READ_RESULT [])
                    ltac:(lia) (List.Forall_nil _))).
    vm_compute. discriminate.
Defined.

(** ** [iniciarPrueba] past the gate *)

Lemma iniciarPrueba_consulta_sin_marca (w : World) :
  sin_marca (rx w) ->
  exists w1,
    iniciarPrueba_consulta w = Some w1 /\
    now w1 = now w + 3500 /\ tx w1 = tx w ++ cmdEstado /\
    currentStatus w1 = currentStatus w /\ sin_marca (rx w1).
Proof.
  intros Hsin. unfold iniciarPrueba_consulta.
  set (wa := iniciarPrueba_banner w).
  assert (Hwa : now wa = now w /\ tx wa = tx w /\ currentStatus wa = currentStatus w
                /\ rx wa = rx w) by (subst wa; auto).
  destruct Hwa as (Hnowa & Htxa & Hcsa & Hrxa).
  destruct (enviarComando_facts cmdEstado wa eq_refl) as (Htx0 & Hnow0 & Hcs0 & _).
  destruct (leerRespuesta_mudo response0 (enviarComando cmdEstado 9 wa) eq_refl)
    as (w2 & Hr & Hnow & Hsin2 & Htx & Hcs & _).
  { rewrite enviarComando_rx, Hrxa. apply vaciar_sin_marca. exact Hsin. }
  rewrite Hr, bind_Some. cbv iota beta. simpl andb. cbv iota.
  exists w2. split; [reflexivity |].
  repeat split; try assumption; try lia; congruence.
Qed.

Lemma gate_pasa (s : Z) :
  s = STATUS_IDLE \/ s = STATUS_READ_RESULT ->
  (s =? STATUS_IDLE) || (s =? STATUS_READ_RESULT) = true.
Proof. intros [-> | ->]; reflexivity. Qed.

(** X6: when the state after the opening query is Idle or ResultReady,
    [iniciarPrueba] polls the state between one and ten times and then
    sends the preheat command [FF 01 87 32 00 00 00 00 46], whether or not
    the wait ended with the sensor idle: nothing else is written, and the
    last line printed announces the preheating. *)
Theorem iniciarPrueba_precalienta (w : World) :
  exists w1,
    iniciarPrueba_consulta w = Some w1 /\
    (currentStatus w1 = STATUS_IDLE \/ currentStatus w1 = STATUS_READ_RESULT ->
     exists w' n,
       iniciarPrueba w = Some w' /\
       (1 <= n <= 10)%nat /\
       tx w' = tx w ++ cmdEstado ++ concat (replicate n cmdEstado) ++ cmdPrecalentar /\
       exists c,
         console w'
         = c ++ [Str "Iniciando precalentamiento del sensor (10 segundos)..."; Nl]).
Proof.
  destruct (iniciarPrueba_consulta_total w) as (w1 & H1 & Htx1).
  exists w1. split; [exact H1 |]. intros Hgate.
  unfold iniciarPrueba. rewrite H1, bind_Some, (gate_pasa _ Hgate).
  destruct (esperarEstado_resultado STATUS_IDLE 10000 w1)
    as (w2 & n & H2 & Htx2 & Hn & Hnow2 & Hn4 & Hres); [lia |].
  rewrite H2, bind_Some.
  destruct (cambiarEstado_total STATUS_PREHEATING w2) as (w3 & H3 & Htx3).
  rewrite H3, bind_Some.
  eexists. exists n. split; [reflexivity |].
  split; [destruct Hres as [[Hn1 _] | [Hto _]]; lia |].
  split.
  - world_simpl. rewrite Htx3, Htx2, Htx1, <- !app_assoc. reflexivity.
  - eexists. reflexivity.
Qed.

Lemma iniciarPrueba_precalienta_witness :
  exists w' n,
    iniciarPrueba (mundo STATUS_READ_RESULT []) = Some w' /\
    (1 <= n <= 10)%nat /\
    tx w' = tx (mundo STATUS_READ_RESULT [])
              ++ cmdEstado ++ concat (replicate n cmdEstado) ++ cmdPrecalentar /\
    exists c,
      console w'
      = c ++ [Str "Iniciando precalentamiento del sensor (10 segundos)..."; Nl].
Proof.
  destruct (iniciarPrueba_precalienta (mundo STATUS_READ_RESULT [])) as (w1 & H1 & Hgo).
  vm_compute in H1. injection H1 as <-.
  apply Hgo. right. reflexivity.
Defined.

(** X7: with a sensor that sends no start marker.  Called with the mirrored
    state Idle, [iniciarPrueba] takes the unanswered poll of the wait for
    an idle sensor: it sends two state queries and the preheat command and
    returns 10800 ms after the call.  Called with ResultReady it polls
    until the ten seconds are over: four state queries and the preheat
    command, 19300 ms.  Called in any other state it sends the one query
    and returns after 3500 ms.  [currentStatus] is the same afterwards. *)
Theorem iniciarPrueba_mudo (w : World) :
  sin_marca (rx w) ->
  (currentStatus w = STATUS_IDLE ->
   exists w',
     iniciarPrueba w = Some w' /\ now w' = now w + 10800 /\
     tx w' = tx w ++ cmdEstado ++ cmdEstado ++ cmdPrecalentar /\
     currentStatus w' = currentStatus w) /\
  (currentStatus w = STATUS_READ_RESULT ->
   exists w',
     iniciarPrueba w = Some w' /\ now w' = now w + 19300 /\
     tx w' = tx w ++ concat (replicate 4 cmdEstado) ++ cmdPrecalentar /\
     currentStatus w' = currentStatus w) /\
  (currentStatus w <> STATUS_IDLE -> currentStatus w <> STATUS_READ_RESULT ->
   exists w',
     iniciarPrueba w = Some w' /\ now w' = now w + 3500 /\
     tx w' = tx w ++ cmdEstado /\
     currentStatus w' = currentStatus w).
Proof.
  intros Hsin.
  destruct (iniciarPrueba_consulta_sin_marca w Hsin)
    as (w1 & H1 & Hnow1 & Htx1 & Hcs1 & Hsin1).
  split; [| split].
  - intros Hidle. unfold iniciarPrueba. rewrite H1, bind_Some.
    rewrite gate_pasa by (left; congruence).
    destruct (proj1 (esperarEstado_sin_marca STATUS_IDLE 10000 w1 ltac:(lia) Hsin1))
      as (w2 & H2 & Hnow2 & Htx2 & Hcs2 & Hsin2); [congruence |].
    rewrite H2, bind_Some.
    destruct (cambiarEstado_mudo STATUS_PREHEATING w2 Hsin2)
      as (w3 & H3 & Hnow3 & Htx3 & Hcs3 & _).
    rewrite H3, bind_Some.
    eexists. split; [reflexivity |]. world_simpl.
    rewrite Hnow3, Hnow2, Hnow1, Htx3, Htx2, Htx1, Hcs3, Hcs2, <- !app_assoc.
    repeat split; try lia; try congruence.
  - intros Hres. unfold iniciarPrueba. rewrite H1, bind_Some.
    rewrite gate_pasa by (right; congruence).
    destruct (proj2 (esperarEstado_sin_marca STATUS_IDLE 10000 w1 ltac:(lia) Hsin1))
      as (w2 & n & H2 & Htx2 & Hnow2 & Hn & Hcs2 & Hsin2 & _).
    { rewrite Hcs1, Hres. vm_compute. discriminate. }
    assert (n = 3%nat) by lia. subst n.
    rewrite H2, bind_Some.
    destruct (cambiarEstado_mudo STATUS_PREHEATING w2 Hsin2)
      as (w3 & H3 & Hnow3 & Htx3 & Hcs3 & _).
    rewrite H3, bind_Some.
    eexists. split; [reflexivity |]. world_simpl.
    rewrite Hnow3, Hnow2, Hnow1, Htx3, Htx2, Htx1, Hcs3, Hcs2.
    cbn [replicate concat]. rewrite <- !app_assoc.
    repeat split; try lia; try congruence.
  - intros Hni Hnr. unfold iniciarPrueba. rewrite H1, bind_Some.
    destruct (Z.eqb_spec (currentStatus w1) STATUS_IDLE) as [? | _]; [congruence |].
    destruct (Z.eqb_spec (currentStatus w1) STATUS_READ_RESULT) as [? | _]; [congruence |].
    cbn [orb]. eexists. split; [reflexivity |]. world_simpl. auto.
Qed.

Lemma iniciarPrueba_mudo_witness :
  (exists w',
     iniciarPrueba (mundo STATUS_IDLE []) = Some w' /\
     now w' = now (mundo STATUS_IDLE []) + 10800 /\
     tx w' = tx (mundo STATUS_IDLE []) ++ cmdEstado ++ cmdEstado ++ cmdPrecalentar /\
     currentStatus w' = currentStatus (mundo STATUS_IDLE [])) /\
  (exists w',
     iniciarPrueba (mundo STATUS_READ_RESULT []) = Some w' /\
     now w' = now (mundo STATUS_READ_RESULT []) + 19300 /\
     tx w' = tx (mundo STATUS_READ_RESULT [])
               ++ concat (replicate 4 cmdEstado) ++ cmdPrecalentar /\
     currentStatus w' = currentStatus (mundo STATUS_READ_RESULT [])) /\
  (exists w',
     iniciarPrueba (mundo STATUS_BLOWING []) = Some w' /\
     now w' = now (mundo STATUS_BLOWING []) + 3500 /\
     tx w' = tx (mundo STATUS_BLOWING []) ++ cmdEstado /\
     currentStatus w' = currentStatus (mundo STATUS_BLOWING [])).
Proof.
  split; [| split].
  - apply (proj1 (iniciarPrueba_mudo (mundo STATUS_IDLE []) (List.Forall_nil _))).
    reflexivity.
  - apply (proj1 (proj2 (iniciarPrueba_mudo (mundo STATUS_READ_RESULT [])
                           (List.Forall_nil _)))).
    reflexivity.
  - apply (proj2 (proj2 (iniciarPrueba_mudo (mundo STATUS_BLOWING [])
                           (List.Forall_nil _)))); vm_compute; discriminate.
Defined.

(** ** One exchange per command *)

Lemma leerTiempoSoplado_envio_rx (w : World) :
  rx (leerTiempoSoplado_envio w) = vaciar (now w) (rx w) /\
  resultAvailable (leerTiempoSoplado_envio w) = resultAvailable w /\
  console (leerTiempoSoplado_envio w)
  = console w ++ [Str "Leyendo tiempo de soplado configurado..."; Nl]
      ++ [Str "Comando enviado: "] ++ dump cmd_leerTiempoSoplado 0 9 ++ [Nl].
Proof.
  unfold leerTiempoSoplado_envio. rewrite imprimir_cmd_eq. world_simpl.
  rewrite <- !app_assoc. auto.
Qed.

Lemma configurarTiempoSoplado_envio_rx (s : Z) (w : World) :
  rx (configurarTiempoSoplado_envio s w) = vaciar (now w) (rx w) /\
  resultAvailable (configurarTiempoSoplado_envio s w) = resultAvailable w.
Proof.
  unfold configurarTiempoSoplado_envio. rewrite imprimir_cmd_eq. world_simpl. auto.
Qed.

Lemma enviarComando_resultAvailable (cmd : list Z) (len : Z) (w : World) :
  resultAvailable (enviarComando cmd len w) = resultAvailable w.
Proof. reflexivity. Qed.

Lemma leerResultado_hechos (w : World) :
  exists w',
    leerResultado w = Some w' /\ tx w' = tx w ++ cmdLeerResultado /\
    now w + 500 <= now w' <= now w + 3500 /\
    currentStatus w' = currentStatus w /\ resultAvailable w' = resultAvailable w.
Proof.
  unfold leerResultado.
  destruct (enviarComando_facts cmdLeerResultado w eq_refl) as (Htx & Hnow & Hcs & _).
  pose proof (enviarComando_resultAvailable cmdLeerResultado 9 w) as Hra.
  destruct (leerRespuesta_total response0 9 (enviarComando cmdLeerResultado 9 w))
    as [[[ok response] w2] Hr].
  rewrite Hr, bind_Some.
  destruct (leerRespuesta_frame response0 _ _ _ _ eq_refl Hr)
    as (Htx2 & Hcs2 & Hra2 & Hnow2 & _).
  rewrite <- Htx, <- Htx2, <- Hcs, <- Hcs2, <- Hra, <- Hra2. rewrite Hnow in Hnow2.
  cbv iota beta.
  casos; eexists; (split; [reflexivity |]); world_simpl;
    repeat split; try reflexivity; lia.
Qed.

(** X8: [cambiarEstado], [leerResultado], [consultarUmbrales],
    [leerTiempoSoplado], [configurarTiempoSoplado] (for a time in 1..10) and
    [probarComunicacion] each write exactly one frame, whatever the sensor
    answers or fails to answer (there is no second attempt); they return no
    later than 3000 ms after the pause that follows the transmission
    (500 or 800 ms); and none of them changes [currentStatus] or
    [resultAvailable]: an accepted state change is not mirrored. *)
Theorem un_intercambio_por_comando (w : World) :
  (forall s, exists w',
     cambiarEstado s w = Some w' /\ tx w' = tx w ++ cmd_cambiarEstado s /\
     now w + 800 <= now w' <= now w + 3800 /\
     currentStatus w' = currentStatus w /\ resultAvailable w' = resultAvailable w) /\
  (exists w',
     leerResultado w = Some w' /\ tx w' = tx w ++ cmdLeerResultado /\
     now w + 500 <= now w' <= now w + 3500 /\
     currentStatus w' = currentStatus w /\ resultAvailable w' = resultAvailable w) /\
  (exists w',
     consultarUmbrales w = Some w' /\ tx w' = tx w ++ cmdUmbral /\
     now w + 500 <= now w' <= now w + 3500 /\
     currentStatus w' = currentStatus w /\ resultAvailable w' = resultAvailable w) /\
  (exists w',
     leerTiempoSoplado w = Some w' /\ tx w' = tx w ++ cmd_leerTiempoSoplado /\
     now w + 800 <= now w' <= now w + 3800 /\
     currentStatus w' = currentStatus w /\ resultAvailable w' = resultAvailable w) /\
  (forall s, 1 <= s <= 10 -> exists w',
     configurarTiempoSoplado s w = Some w' /\
     tx w' = tx w ++ cmd_configurarTiempoSoplado s /\
     now w + 800 <= now w' <= now w + 3800 /\
     currentStatus w' = currentStatus w /\ resultAvailable w' = resultAvailable w) /\
  (tx (probarComunicacion w) = tx w ++ cmdTest /\
   now (probarComunicacion w) = now w + 600 /\
   currentStatus (probarComunicacion w) = currentStatus w /\
   resultAvailable (probarComunicacion w) = resultAvailable w).
Proof.
  split; [| split; [| split; [| split; [| split]]]].
  - intros s. unfold cambiarEstado.
    destruct (cambiarEstado_envio_facts s w) as (Htx & Hnow & Hcs).
    destruct (cambiarEstado_envio_rx s w) as (_ & Hra & _).
    destruct (leerRespuesta_total response0 9 (cambiarEstado_envio s w))
      as [[[ok response] w2] Hr].
    rewrite Hr, bind_Some.
    destruct (leerRespuesta_frame response0 _ _ _ _ eq_refl Hr)
      as (Htx2 & Hcs2 & Hra2 & Hnow2 & _).
    rewrite <- Htx, <- Htx2, <- Hcs, <- Hcs2, <- Hra, <- Hra2. rewrite Hnow in Hnow2.
    cbv iota beta.
    casos; eexists; (split; [reflexivity |]); world_simpl;
      repeat split; try reflexivity; lia.
  - exact (leerResultado_hechos w).
  - unfold consultarUmbrales.
    destruct (enviarComando_facts cmdUmbral w eq_refl) as (Htx & Hnow & Hcs & _).
    pose proof (enviarComando_resultAvailable cmdUmbral 9 w) as Hra.
    destruct (leerRespuesta_total response0 9 (enviarComando cmdUmbral 9 w))
      as [[[ok response] w2] Hr].
    rewrite Hr, bind_Some.
    destruct (leerRespuesta_frame response0 _ _ _ _ eq_refl Hr)
      as (Htx2 & Hcs2 & Hra2 & Hnow2 & _).
    rewrite <- Htx, <- Htx2, <- Hcs, <- Hcs2, <- Hra, <- Hra2. rewrite Hnow in Hnow2.
    cbv iota beta.
    casos; eexists; (split; [reflexivity |]); world_simpl;
      repeat split; try reflexivity; lia.
  - unfold leerTiempoSoplado.
    destruct (leerTiempoSoplado_envio_facts w) as (Htx & Hnow & Hcs).
    destruct (leerTiempoSoplado_envio_rx w) as (_ & Hra & _).
    destruct (leerRespuesta_total response0 9 (leerTiempoSoplado_envio w))
      as [[[ok response] w2] Hr].
    rewrite Hr, bind_Some.
    destruct (leerRespuesta_frame response0 _ _ _ _ eq_refl Hr)
      as (Htx2 & Hcs2 & Hra2 & Hnow2 & _).
    rewrite <- Htx, <- Htx2, <- Hcs, <- Hcs2, <- Hra, <- Hra2. rewrite Hnow in Hnow2.
    cbv iota beta.
    casos; eexists; (split; [reflexivity |]); rewrite ?imprimirRespuesta_eq;
      world_simpl; repeat split; try reflexivity; lia.
  - intros s Hs. unfold configurarTiempoSoplado.
    destruct (Z.ltb_spec s 1); [lia |]. destruct (Z.gtb_spec s 10); [lia |].
    cbn [orb].
    destruct (configurarTiempoSoplado_envio_facts s w) as (Htx & Hnow & Hcs).
    destruct (configurarTiempoSoplado_envio_rx s w) as (_ & Hra).
    destruct (leerRespuesta_total response0 9 (configurarTiempoSoplado_envio s w))
      as [[[ok response] w2] Hr].
    rewrite Hr, bind_Some.
    destruct (leerRespuesta_frame response0 _ _ _ _ eq_refl Hr)
      as (Htx2 & Hcs2 & Hra2 & Hnow2 & _).
    rewrite <- Htx, <- Htx2, <- Hcs, <- Hcs2, <- Hra, <- Hra2. rewrite Hnow in Hnow2.
    cbv iota beta.
    casos; eexists; (split; [reflexivity |]); rewrite ?imprimirRespuesta_eq;
      world_simpl; repeat split; try reflexivity; lia.
  - split; [apply probarComunicacion_tx |].
    unfold probarComunicacion. rewrite imprimirRespuesta_loop_eq.
    unfold enviarComando. world_simpl. repeat split; lia.
Qed.

Lemma un_intercambio_por_comando_witness :
  exists w',
    configurarTiempoSoplado 10 (mundo STATUS_IDLE []) = Some w' /\
    tx w' = tx (mundo STATUS_IDLE []) ++ cmd_configurarTiempoSoplado 10 /\
    now (mundo STATUS_IDLE []) + 800 <= now w' <= now (mundo STATUS_IDLE []) + 3800 /\
    currentStatus w' = currentStatus (mundo STATUS_IDLE []) /\
    resultAvailable w' = resultAvailable (mundo STATUS_IDLE []).
Proof.
  destruct (un_intercambio_por_comando (mundo STATUS_IDLE []))
    as (_ & _ & _ & _ & H & _).
  apply (H 10). lia.
Defined.

(** ** The mirrored state and the result flag *)

(** X9: what [verificarEstado] does to the two globals, in every case.
    [currentStatus] becomes byte 2 of the response when nine bytes were read
    and bytes 0 and 1 are [FF 85], and is unchanged otherwise.
    [resultAvailable] is set when that new state is [0x37] and is never
    cleared. *)
Theorem verificarEstado_espejo (w : World) :
  exists ok response w2 w',
    leerRespuesta response0 9 (enviarComando cmdEstado 9 w) = Some (ok, response, w2) /\
    verificarEstado w = Some w' /\
    currentStatus w'
    = (if ok && cabecera_ok response 0x85 then response !!! 2%nat
       else currentStatus w) /\
    resultAvailable w'
    = resultAvailable w
      || (ok && cabecera_ok response 0x85 && (response !!! 2%nat =? STATUS_READ_RESULT)).
Proof.
  destruct (leerRespuesta_total response0 9 (enviarComando cmdEstado 9 w))
    as [[[ok response] w2] Hr].
  exists ok, response, w2.
  destruct (leerRespuesta_frame response0 _ _ _ _ eq_refl Hr)
    as (_ & Hcs2 & Hra2 & _).
  destruct (enviarComando_facts cmdEstado w eq_refl) as (_ & _ & Hcs0 & _).
  pose proof (enviarComando_resultAvailable cmdEstado 9 w) as Hra0.
  unfold verificarEstado. rewrite Hr, bind_Some. cbv iota beta.
  rewrite <- Hcs0, <- Hcs2, <- Hra0, <- Hra2.
  destruct ok;
    [| eexists; split; [reflexivity |]; split; [reflexivity |];
       cbn [andb]; rewrite orb_false_r; world_simpl; split; reflexivity ].
  destruct (cabecera_ok response 133);
    [| eexists; split; [reflexivity |]; split; [reflexivity |];
       cbn [andb]; rewrite orb_false_r; split; reflexivity ].
  cbn [andb]. world_simpl.
  destruct (Z.eqb_spec (response !!! 2%nat) STATUS_READ_RESULT) as [E | E].
  - rewrite orb_true_r, E.
    eexists. split; [reflexivity |]. split; [reflexivity |].
    world_simpl. split; reflexivity.
  - rewrite orb_false_r.
    casos; eexists; (split; [reflexivity |]); (split; [reflexivity |]);
      world_simpl; split; reflexivity.
Qed.

(** ** The fragments of [loop] *)

(** X10: the periodic part of [loop] reads a ready result once.  With
    [currentStatus] at ResultReady, [resultAvailable] set and 3000 ms gone
    since [lastStatusCheck], it sends the read-result command and clears
    [resultAvailable], whatever the sensor answered; after that, a further
    pass changes nothing, whenever it comes.  In every other situation a
    pass leaves the world as it is. *)
Theorem loop_periodico_una_vez :
  (forall (lastStatusCheck : Z) (w : World),
     currentStatus w = STATUS_READ_RESULT -> resultAvailable w = true ->
     3000 <= to_ulong (millis w - lastStatusCheck) ->
     exists w',
       loop_periodico lastStatusCheck w = Some (millis w, w') /\
       tx w' = tx w ++ cmdLeerResultado /\
       resultAvailable w' = false /\ currentStatus w' = STATUS_READ_RESULT /\
       forall last2, exists last3, loop_periodico last2 w' = Some (last3, w')) /\
  (forall (lastStatusCheck : Z) (w : World),
     currentStatus w <> STATUS_READ_RESULT \/ resultAvailable w = false \/
     to_ulong (millis w - lastStatusCheck) < 3000 ->
     exists last', loop_periodico lastStatusCheck w = Some (last', w)).
Proof.
  split.
  - intros last w Hcs Hra Hel. unfold loop_periodico.
    destruct (Z.geb_spec (to_ulong (millis w - last)) 3000) as [_ | ?]; [| lia].
    rewrite Hcs, Hra. change ((STATUS_READ_RESULT =? STATUS_READ_RESULT) && true) with true.
    cbv iota.
    destruct (leerResultado_hechos w) as (w1 & H1 & Htx1 & _ & Hcs1 & _).
    rewrite H1, bind_Some.
    eexists. split; [reflexivity |]. world_simpl.
    split; [exact Htx1 |]. split; [reflexivity |]. split; [congruence |].
    intros last2. world_simpl. rewrite andb_false_r.
    destruct (to_ulong (millis (set_resultAvailable false w1) - last2) >=? 3000);
      eexists; reflexivity.
  - intros last w Hno. unfold loop_periodico.
    destruct (Z.geb_spec (to_ulong (millis w - last)) 3000) as [Hge | Hlt];
      [| eexists; reflexivity].
    destruct Hno as [Hcs | [Hra | Hel]]; [| | lia].
    + destruct (Z.eqb_spec (currentStatus w) STATUS_READ_RESULT) as [? | _];
        [contradiction |].
      cbn [andb]. eexists; reflexivity.
    + rewrite Hra, andb_false_r. eexists; reflexivity.
Qed.

Lemma loop_periodico_una_vez_witness :
  let w := mkWorld 5000 [] [] [] STATUS_READ_RESULT true in
  (exists w',
     loop_periodico 1000 w = Some (millis w, w') /\
     tx w' = tx w ++ cmdLeerResultado /\
     resultAvailable w' = false /\ currentStatus w' = STATUS_READ_RESULT /\
     forall last2, exists last3, loop_periodico last2 w' = Some (last3, w')) /\
  (exists last', loop_periodico 4000 w = Some (last', w)).
Proof.
  intros w. split.
  - apply (proj1 loop_periodico_una_vez 1000 w).
    + reflexivity.
    + reflexivity.
    + vm_compute. discriminate.
  - apply (proj2 loop_periodico_una_vez 4000 w).
    right; right. vm_compute. reflexivity.
Defined.

(** X11: the ['r'] command of [loop] sends the read-result command only
    when [currentStatus] is ResultReady, and otherwise only prints that no
    result is available.  It does not clear [resultAvailable]: when the
    flag was set, the next periodic pass that is due reads the same result
    a second time. *)
Theorem loop_r_guardia :
  (forall w : World,
     currentStatus w <> STATUS_READ_RESULT ->
     exists w',
       loop_r w = Some w' /\ tx w' = tx w /\ rx w' = rx w /\ now w' = now w /\
       console w' = console w ++ [Str "No hay resultado disponible para leer"; Nl]) /\
  (forall w : World,
     currentStatus w = STATUS_READ_RESULT ->
     exists w1,
       loop_r w = Some w1 /\ tx w1 = tx w ++ cmdLeerResultado /\
       resultAvailable w1 = resultAvailable w /\
       forall lastStatusCheck,
         resultAvailable w = true ->
         3000 <= to_ulong (millis w1 - lastStatusCheck) ->
         exists w2,
           loop_periodico lastStatusCheck w1 = Some (millis w1, w2) /\
           tx w2 = tx w ++ cmdLeerResultado ++ cmdLeerResultado).
Proof.
  split.
  - intros w Hcs. unfold loop_r.
    destruct (Z.eqb_spec (currentStatus w) STATUS_READ_RESULT) as [? | _];
      [contradiction |].
    eexists. split; [reflexivity |]. world_simpl. auto.
  - intros w Hcs. unfold loop_r. rewrite Hcs.
    change (STATUS_READ_RESULT =? STATUS_READ_RESULT) with true. cbv iota.
    destruct (leerResultado_hechos w) as (w1 & H1 & Htx1 & _ & Hcs1 & Hra1).
    exists w1. split; [exact H1 |]. split; [exact Htx1 |]. split; [exact Hra1 |].
    intros last Hra Hel. unfold loop_periodico.
    destruct (Z.geb_spec (to_ulong (millis w1 - last)) 3000) as [_ | ?]; [| lia].
    rewrite Hcs1, Hcs, Hra1, Hra.
    change ((STATUS_READ_RESULT =? STATUS_READ_RESULT) && true) with true. cbv iota.
    destruct (leerResultado_hechos w1) as (w2 & H2 & Htx2 & _).
    rewrite H2, bind_Some. eexists. split; [reflexivity |]. world_simpl.
    rewrite Htx2, Htx1, <- app_assoc. reflexivity.
Qed.

Lemma loop_r_guardia_witness :
  (exists w',
     loop_r (mundo STATUS_IDLE []) = Some w' /\
     tx w' = tx (mundo STATUS_IDLE []) /\ rx w' = rx (mundo STATUS_IDLE []) /\
     now w' = now (mundo STATUS_IDLE []) /\
     console w' = console (mundo STATUS_IDLE [])
                    ++ [Str "No hay resultado disponible para leer"; Nl]) /\
  (exists w1,
     loop_r (mkWorld 0 [] [] [] STATUS_READ_RESULT true) = Some w1 /\
     tx w1 = cmdLeerResultado /\
     exists w2,
       loop_periodico 0 w1 = Some (millis w1, w2) /\
       tx w2 = [] ++ cmdLeerResultado ++ cmdLeerResultado).
Proof.
  split.
  - apply (proj1 loop_r_guardia (mundo STATUS_IDLE [])). vm_compute. discriminate.
  - destruct (proj2 loop_r_guardia (mkWorld 0 [] [] [] STATUS_READ_RESULT true) eq_refl)
      as (w1 & H1 & Htx1 & _ & Hnext).
    exists w1. split; [exact H1 |]. split; [exact Htx1 |].
    apply (Hnext 0); [reflexivity |].
    vm_compute in H1. injection H1 as <-. vm_compute. discriminate.
Defined.

(** X12: the ['c'] command of [loop] stores the number typed in a [byte]
    before the range test, so the test sees the number modulo 256: 257 is
    sent to the sensor as a blow time of 1 second, while 11 and 256 are
    refused. *)
Theorem loop_c_trunca :
  (forall (valor : Z) (w : World),
     1 <= valor mod 256 <= 10 ->
     exists w',
       loop_c valor w = Some w' /\
       tx w' = tx w ++ cmd_configurarTiempoSoplado (valor mod 256)) /\
  (forall (valor : Z) (w : World),
     valor mod 256 < 1 \/ 10 < valor mod 256 ->
     exists w',
       loop_c valor w = Some w' /\ tx w' = tx w /\ now w' = now w /\
       console w' = console w ++ [Str "Error: Tiempo fuera de rango (1-10s)"; Nl]).
Proof.
  split.
  - intros valor w Hv. unfold loop_c, to_byte.
    apply configurarTiempoSoplado_total. exact Hv.
  - intros valor w Hv. unfold loop_c, to_byte, configurarTiempoSoplado.
    replace ((valor mod 256 <? 1) || (valor mod 256 >? 10)) with true.
    + eexists. split; [reflexivity |]. world_simpl. auto.
    + symmetry. apply orb_true_iff.
      destruct (Z.ltb_spec (valor mod 256) 1); [auto |].
      destruct (Z.gtb_spec (valor mod 256) 10); [auto | lia].
Qed.

Lemma loop_c_trunca_witness :
  (exists w',
     loop_c 257 (mundo STATUS_IDLE []) = Some w' /\
     tx w' = [] ++ [0xFF; 0x01; 0x89; 0x01; 0x00; 0x00; 0x00; 0x00; 0x75]) /\
  (exists w',
     loop_c 256 (mundo STATUS_IDLE []) = Some w' /\
     tx w' = tx (mundo STATUS_IDLE []) /\ now w' = now (mundo STATUS_IDLE []) /\
     console w' = console (mundo STATUS_IDLE [])
                    ++ [Str "Error: Tiempo fuera de rango (1-10s)"; Nl]).
Proof.
  split.
  - apply (proj1 loop_c_trunca 257 (mundo STATUS_IDLE [])). vm_compute.
    split; discriminate.
  - apply (proj2 loop_c_trunca 256 (mundo STATUS_IDLE [])). left. reflexivity.
Defined.

(** ** [consultarUmbrales], [leerTiempoSoplado], [probarComunicacion] *)

(** X13: [consultarUmbrales] discards what is in the receive buffer, sends
    its query and reads the nine bytes that follow; it prints bytes 2 and
    3 as the two thresholds when byte 1 is [0x90], and prints nothing at
    all about a response with another byte 1.  When no start marker
    arrives it prints nothing beyond the time-out line of the reader. *)
Theorem consultarUmbrales_intercambio :
  (forall (w : World) (stale reply rest : list (Z * Z)),
     rx w = stale ++ reply ++ rest ->
     llegan_antes (now w) stale ->
     con_marca reply -> length reply = 9%nat ->
     llegan_despues (now w) reply -> llegan_antes (now w + 3420) reply ->
     exists w',
       consultarUmbrales w = Some w' /\ rx w' = rest /\
       console w'
       = console w ++ out_leidos (bytes_of reply) 9 9
           ++ (if cabecera_ok (bytes_of reply) 0x90
               then umbrales_out (bytes_of reply) else [])) /\
  (forall w : World,
     sin_marca (rx w) ->
     exists w',
       consultarUmbrales w = Some w' /\
       console w' = console w ++ out_timeout_sin_datos).
Proof.
  split.
  - intros w stale reply rest Hrx Hstale Hf Hlen Hafter Hbefore.
    pose proof (enviarComando_descarta cmdUmbral w stale reply rest Hrx Hstale
                  (con_marca_no_vacia _ Hf) Hafter) as Hrx0.
    destruct (enviarComando_facts cmdUmbral w eq_refl) as (_ & Hnow0 & _ & Hco0).
    destruct (leerRespuesta_responde (enviarComando cmdUmbral 9 w) reply rest)
      as (w2 & Hr & Hrest & _ & _ & _ & Hco & _); try assumption.
    { rewrite Hnow0. replace (now w + 500 + 2920) with (now w + 3420) by lia.
      exact Hbefore. }
    unfold consultarUmbrales. rewrite Hr, bind_Some. cbv iota beta. cbn [andb].
    rewrite <- Hrest, <- Hco0.
    destruct (cabecera_ok (bytes_of reply) 144).
    + eexists. split; [reflexivity |]. world_simpl. split; [reflexivity |].
      rewrite Hco. unfold umbrales_out. rewrite <- !app_assoc. reflexivity.
    + exists w2. split; [reflexivity |]. split; [reflexivity |].
      rewrite Hco, app_nil_r. reflexivity.
  - intros w Hsin.
    destruct (enviarComando_facts cmdUmbral w eq_refl) as (_ & _ & _ & Hco0).
    destruct (leerRespuesta_mudo response0 (enviarComando cmdUmbral 9 w) eq_refl)
      as (w2 & Hr & _ & _ & _ & _ & _ & Hco).
    { rewrite enviarComando_rx. apply vaciar_sin_marca. exact Hsin. }
    unfold consultarUmbrales. rewrite Hr, bind_Some. cbv iota beta. cbn [andb].
    exists w2. split; [reflexivity |]. rewrite Hco, Hco0. reflexivity.
Qed.

Lemma consultarUmbrales_intercambio_witness :
  let reply := llegada 30 [0xFF; 0x90; 0x14; 0x50; 0; 0; 0; 0; 0x0C] in
  let w := mundo STATUS_IDLE (llegada (-5) [0x01; 0x02] ++ reply ++ []) in
  (exists w',
     consultarUmbrales w = Some w' /\ rx w' = [] /\
     console w'
     = console w ++ out_leidos (bytes_of reply) 9 9
         ++ (if cabecera_ok (bytes_of reply) 0x90
             then umbrales_out (bytes_of reply) else [])) /\
  (exists w',
     consultarUmbrales (mundo STATUS_IDLE []) = Some w' /\
     console w' = console (mundo STATUS_IDLE []) ++ out_timeout_sin_datos).
Proof.
  intros reply w. split.
  - apply (proj1 consultarUmbrales_intercambio w (llegada (-5) [0x01; 0x02]) reply []).
    + reflexivity.
    + cada_uno ltac:(simpl; lia).
    + reflexivity.
    + reflexivity.
    + unfold llegan_despues. cada_uno ltac:(simpl; lia).
    + cada_uno ltac:(simpl; lia).
  - apply (proj2 consultarUmbrales_intercambio (mundo STATUS_IDLE [])).
    apply List.Forall_nil.
Defined.

(** X14: [leerTiempoSoplado] discards what is in the receive buffer, sends
    [FF 01 88 00 00 00 00 00 77] and reads the nine bytes that follow; when
    byte 1 is [0x88] it prints byte 2 as the seconds, whatever its value
    (no range is checked), and otherwise it prints that the response is
    wrong and dumps it. *)
Theorem leerTiempoSoplado_intercambio
    (w : World) (stale reply rest : list (Z * Z)) :
  rx w = stale ++ reply ++ rest ->
  llegan_antes (now w) stale ->
  con_marca reply -> length reply = 9%nat ->
  llegan_despues (now w) reply -> llegan_antes (now w + 3720) reply ->
  exists w',
    leerTiempoSoplado w = Some w' /\ rx w' = rest /\
    tx w' = tx w ++ [0xFF; 0x01; 0x88; 0x00; 0x00; 0x00; 0x00; 0x00; 0x77] /\
    console w'
    = console w ++ tiempo_envio_out ++ out_leidos (bytes_of reply) 9 9
        ++ tiempo_out (bytes_of reply).
Proof.
  intros Hrx Hstale Hf Hlen Hafter Hbefore.
  destruct (leerTiempoSoplado_envio_facts w) as (Htx0 & Hnow0 & _).
  destruct (leerTiempoSoplado_envio_rx w) as (Hrx0 & _ & Hco0).
  assert (Hrx1 : rx (leerTiempoSoplado_envio w) = reply ++ rest).
  { rewrite Hrx0, Hrx. apply vaciar_app; [exact Hstale |].
    apply silencio_llegan_despues; [apply con_marca_no_vacia; exact Hf | exact Hafter]. }
  destruct (leerRespuesta_responde (leerTiempoSoplado_envio w) reply rest)
    as (w2 & Hr & Hrest & Htx & _ & _ & Hco & _); try assumption.
  { rewrite Hnow0. replace (now w + 800 + 2920) with (now w + 3720) by lia.
    exact Hbefore. }
  unfold leerTiempoSoplado. rewrite Hr, bind_Some. cbv iota beta.
  unfold tiempo_out.
  change cmd_leerTiempoSoplado
    with [0xFF; 0x01; 0x88; 0x00; 0x00; 0x00; 0x00; 0x00; 0x77] in Htx0.
  destruct (cabecera_ok (bytes_of reply) 136).
  - eexists. split; [reflexivity |]. world_simpl.
    rewrite Hrest, Htx, Htx0, Hco, Hco0. unfold tiempo_envio_out.
    repeat split. rewrite <- !app_assoc. reflexivity.
  - eexists. split; [reflexivity |]. rewrite imprimirRespuesta_eq. world_simpl.
    rewrite Hrest, Htx, Htx0, Hco, Hco0. unfold tiempo_envio_out.
    repeat split. rewrite <- !app_assoc. reflexivity.
Qed.

Lemma leerTiempoSoplado_intercambio_witness :
  let reply := llegada 30 [0xFF; 0x88; 0xC8; 0; 0; 0; 0; 0; 0xB0] in
  let w := mundo STATUS_IDLE ([] ++ reply ++ []) in
  exists w',
    leerTiempoSoplado w = Some w' /\ rx w' = [] /\
    tx w' = tx w ++ [0xFF; 0x01; 0x88; 0x00; 0x00; 0x00; 0x00; 0x00; 0x77] /\
    console w'
    = console w ++ tiempo_envio_out ++ out_leidos (bytes_of reply) 9 9
        ++ tiempo_out (bytes_of reply).
Proof.
  intros reply w.
  apply (leerTiempoSoplado_intercambio w [] reply []).
  - reflexivity.
  - apply List.Forall_nil.
  - reflexivity.
  - reflexivity.
  - unfold llegan_despues. cada_uno ltac:(simpl; lia).
  - cada_uno ltac:(simpl; lia).
Defined.

Lemma silencio_app (t : Z) (q rest : list (Z * Z)) :
  llegan_despues t q -> silencio_hasta (t + 1) rest -> silencio_hasta (t + 1) (q ++ rest).
Proof.
  intros Hq Hr. destruct q as [|[ta b] q]; [exact Hr |].
  inversion Hq as [|? ? Hta _]. simpl in *. lia.
Qed.

Lemma silencio_mono (t t' : Z) (q : list (Z * Z)) :
  t <= t' -> silencio_hasta t' q -> silencio_hasta t q.
Proof. intros Ht. destruct q as [|[ta b] q]; simpl; [trivial | lia]. Qed.

(** X15: [probarComunicacion] discards what is in the receive buffer, sends
    the state query, and 600 ms after the call prints how many bytes have
    come in since; it reads none of them, so they are still in the queue
    when it returns, and the next command that is sent throws them away. *)
Theorem probarComunicacion_cuenta
    (w : World) (stale reply rest : list (Z * Z)) :
  rx w = stale ++ reply ++ rest ->
  llegan_antes (now w) stale ->
  llegan_despues (now w) reply -> llegan_antes (now w + 600) reply ->
  silencio_hasta (now w + 601) rest ->
  let w' := probarComunicacion w in
  now w' = now w + 600 /\ tx w' = tx w ++ cmdTest /\
  rx w' = reply ++ rest /\
  (exists c,
     console w'
     = c ++ [Str "Bytes disponibles después del comando: ";
             Dec (Z.of_nat (length reply)); Nl]) /\
  forall cmd, rx (enviarComando cmd 9 w') = rest.
Proof.
  intros Hrx Hstale Hafter Hbefore Hsil w'.
  assert (Hrx' : rx w' = reply ++ rest).
  { subst w'. unfold probarComunicacion. rewrite imprimirRespuesta_loop_eq.
    world_simpl. rewrite enviarComando_rx. world_simpl. rewrite Hrx.
    apply vaciar_app; [exact Hstale |].
    apply silencio_app; [exact Hafter |].
    eapply silencio_mono; [| exact Hsil]. lia. }
  assert (Hnow' : now w' = now w + 600).
  { subst w'. unfold probarComunicacion. rewrite imprimirRespuesta_loop_eq.
    unfold enviarComando. world_simpl. lia. }
  split; [exact Hnow' |]. split; [apply probarComunicacion_tx |].
  split; [exact Hrx' |]. split.
  - subst w'. unfold probarComunicacion. rewrite imprimirRespuesta_loop_eq.
    unfold SensorSerial_available.
    match goal with
    | |- context [arrived (now ?x) (rx ?x)] =>
        replace (arrived (now x) (rx x)) with (map snd reply)
    end.
    + rewrite length_map. world_simpl. eexists.
      rewrite <- app_assoc. reflexivity.
    + symmetry. world_simpl. rewrite enviarComando_rx. world_simpl.
      unfold enviarComando. world_simpl. rewrite Hrx.
      rewrite (vaciar_app (now w) stale (reply ++ rest)); [| exact Hstale |].
      * replace (now w + 500 + 100) with (now w + 600) by lia.
        apply arrived_app; [exact Hbefore |].
        replace (now w + 600 + 1) with (now w + 601) by lia. exact Hsil.
      * apply silencio_app; [exact Hafter |].
        eapply silencio_mono; [| exact Hsil]. lia.
  - intros cmd. rewrite enviarComando_rx, Hrx', Hnow'.
    apply vaciar_app; [exact Hbefore |].
    replace (now w + 600 + 1) with (now w + 601) by lia. exact Hsil.
Qed.

Lemma probarComunicacion_cuenta_witness :
  let reply := llegada 520 [0xFF; 0x85; 0x31; 0; 0; 0; 0; 0; 0x4A] in
  let w := mundo STATUS_IDLE (llegada (-5) [0x07] ++ reply ++ []) in
  let w' := probarComunicacion w in
  now w' = now w + 600 /\ tx w' = tx w ++ cmdTest /\
  rx w' = reply ++ [] /\
  (exists c,
     console w'
     = c ++ [Str "Bytes disponibles después del comando: ";
             Dec (Z.of_nat (length reply)); Nl]) /\
  forall cmd, rx (enviarComando cmd 9 w') = [].
Proof.
  intros reply w.
  apply (probarComunicacion_cuenta w (llegada (-5) [0x07]) reply []).
  - reflexivity.
  - cada_uno ltac:(simpl; lia).
  - unfold llegan_despues. cada_uno ltac:(simpl; lia).
  - cada_uno ltac:(simpl; lia).
  - exact I.
Defined.

(** ** [calcularChecksum] on its input *)

(** X16: for a byte array [data], [calcularChecksum data len] with [len] its
    length is [(1 - sum) mod 256], so that the sum of the data and the
    result is 1 modulo 256 and never 0; for a length of zero or less it
    returns 1. *)
Theorem calcularChecksum_suma :
  (forall data : list Z,
     Forall is_byte data -> Z.of_nat (length data) < 8000000 ->
     calcularChecksum data (Z.of_nat (length data)) = (1 - suma data) mod 256 /\
     (suma data + calcularChecksum data (Z.of_nat (length data))) mod 256 = 1) /\
  (forall (data : list Z) (len : Z), len <= 0 -> calcularChecksum data len = 1).
Proof.
  split.
  - intros data Hb Hlen. unfold calcularChecksum.
    rewrite Nat2Z.id, sum_loop_suma by (try assumption; lia).
    rewrite drop_0, firstn_all, Z.add_0_l.
    fold (checksum_neg (suma data)). rewrite checksum_neg_eq.
    split; [reflexivity |].
    rewrite Zplus_mod_idemp_r. replace (suma data + (1 - suma data)) with 1 by lia.
    reflexivity.
  - intros data len Hlen. unfold calcularChecksum.
    replace (Z.to_nat len) with 0%nat by lia. reflexivity.
Qed.

Lemma calcularChecksum_suma_witness :
  (calcularChecksum [0x01; 0x87; 0x32] (Z.of_nat (length [0x01; 0x87; 0x32]))
   = (1 - suma [0x01; 0x87; 0x32]) mod 256 /\
   (suma [0x01; 0x87; 0x32]
    + calcularChecksum [0x01; 0x87; 0x32] (Z.of_nat (length [0x01; 0x87; 0x32])))
   mod 256 = 1) /\
  calcularChecksum [0x01; 0x87; 0x32] (-1) = 1.
Proof.
  split.
  - apply (proj1 calcularChecksum_suma [0x01; 0x87; 0x32]).
    + cada_uno ltac:(unfold is_byte; lia).
    + simpl. lia.
  - apply (proj2 calcularChecksum_suma [0x01; 0x87; 0x32] (-1)). lia.
Defined.
